(** * Rush global script actions and Git detection: a shallow embedding

    The development embeds two classes of rush-lib,

    - [Git] (getGitPath, detectIfGitIsSupported, getGitEmail, tryGetGitEmail)
    - [GlobalScriptAction] (constructor, runAsync)

    as functions of a small state-and-exception monad over the observable
    world of the Node process, and the ready-set scheduler of the design
    document as a transition system.  The operating system, the file system
    and the helpers of other packages are oracles of a [Host] record. *)

From Stdlib Require Import String Ascii List ZArith Bool Arith Lia DecimalString.
Import ListNotations.
Open Scope string_scope.

(** ** JavaScript values *)

(** Thrown values.  [AlreadyReportedError] is the subclass of [Error] that
    tells the top-level handler not to print anything more. *)
Inductive JsError : Type :=
| Error (message : string)
| AlreadyReportedError.

Definition message (e : JsError) : string :=
  match e with
  | Error m => m
  | AlreadyReportedError => "An error occurred."
  end.

(** How a call ends: it returns a value or it throws. *)
Inductive Completion (A : Type) : Type :=
| Normal (value : A)
| Abrupt (thrown : JsError).
Arguments Normal {A} value.
Arguments Abrupt {A} thrown.

(** Truthiness of a string, and of a [string | undefined]. *)
Definition truthy (s : string) : bool := negb (s =? "").

Definition truthy_opt (o : option string) : bool :=
  match o with
  | Some s => truthy s
  | None => false
  end.

(** A Node Buffer, by the bytes it holds.  [child_process.spawnSync] is
    called without an encoding, so the [stdout] it returns is a Buffer,
    whatever its declared type says. *)
Definition Buffer : Type := string.

(** A Buffer is an object: it is truthy, also when it holds no byte. *)
Definition truthyBuffer (b : Buffer) : bool := true.

Definition truthyBuffer_opt (o : option Buffer) : bool :=
  match o with
  | Some b => truthyBuffer b
  | None => false
  end.

(** [a || b] on [string | undefined] with a string default. *)
Definition or_else (o : option string) (d : string) : string :=
  match o with
  | Some s => if truthy s then s else d
  | None => d
  end.

(** String.prototype.trim over the code units 0..255: the white space and
    line terminators of ECMAScript in that range. *)
Definition isWhiteSpace (c : ascii) : bool :=
  let n := nat_of_ascii c in
  ((n =? 9) || (n =? 10) || (n =? 11) || (n =? 12) || (n =? 13)
   || (n =? 32) || (n =? 160))%nat.

Fixpoint trimStart (s : string) : string :=
  match s with
  | EmptyString => EmptyString
  | String c rest => if isWhiteSpace c then trimStart rest else s
  end.

Fixpoint trimEnd (s : string) : string :=
  match s with
  | EmptyString => EmptyString
  | String c rest =>
      match trimEnd rest with
      | EmptyString => if isWhiteSpace c then EmptyString else String c EmptyString
      | kept => String c kept
      end
  end.

Definition trim (s : string) : string := trimEnd (trimStart s).

(** Template-literal rendering of an integer. *)
Definition string_of_Z (z : Z) : string := NilZero.string_of_int (Z.to_int z).

(** colors.red of colors/safe: when colours are enabled, the ANSI escape for
    red, the text, and the reset of the foreground; the text unchanged when
    they are disabled. *)
Definition ESC : string := String (ascii_of_nat 27) EmptyString.
Definition red (enabled : bool) (s : string) : string :=
  if enabled then ESC ++ "[31m" ++ s ++ ESC ++ "[39m" else s.

(** A piece of text between double quotes, as the messages print names. *)
Definition quoted (s : string) : string :=
  String (ascii_of_nat 34) s ++ String (ascii_of_nat 34) EmptyString.

(** path.join, for the case this class meets: POSIX, with segments that are
    already normalized (a folder of the Rush configuration, a validated
    package name, fixed names), where joining puts one slash between the
    segments. *)
Definition path_join (segments : list string) : string := String.concat "/" segments.

(** ** Records of the source *)

Record SpawnSyncReturns : Type := {
  status : option Z;
  stdout : Buffer
}.

Record GitRepoInfo : Type := {
  sha : option string
}.

Record IResultOrError (TResult : Type) : Type := {
  error : option JsError;
  result : option TResult
}.
Arguments error {TResult} _.
Arguments result {TResult} _.

Record RushConfiguration : Type := {
  commonAutoinstallersFolder : string;
  rushJsonFolder : string;
  commonTempFolder : string
}.

Record IEnvironmentPathOptions : Type := {
  includeRepoBin : bool;
  additionalPathFolders : list string
}.

Record ILifecycleCommandOptions : Type := {
  lc_rushConfiguration : RushConfiguration;
  workingDirectory : string;
  initCwd : string;
  handleOutput : bool;
  environmentPathOptions : IEnvironmentPathOptions
}.

Record IPackageJson : Type := {
  name : string
}.

(** A command-line parameter, seen through the one method the action calls:
    [appendToArgList] pushes the parameter's tokens onto the array it is
    given. *)
Record CommandLineParameter : Type := {
  appendToArgList : list string -> list string
}.

(** Of the base options only what this class reads back through [this] is
    kept: the action name, and the configuration of the parser. *)
Record IGlobalScriptActionOptions : Type := {
  opt_actionName : string;
  opt_rushConfiguration : RushConfiguration;
  shellCommand : string;
  autoinstallerName : option string
}.

Record GlobalScriptAction : Type := {
  actionName : string;
  rushConfiguration : RushConfiguration;
  customParameters : list CommandLineParameter;
  _shellCommand : string;
  _autoinstallerName : string;
  _autoinstallerFullPath : string
}.

(** ** The world *)

(** What the process does to its surroundings, oldest first. *)
Inductive Event : Type :=
| SpawnSync (command : string) (args : list string)
| GitInfo
| ExecuteCommandAndCaptureOutput (command : string) (args : list string) (cwd : string)
| ConsoleLog (text : string)
| PrepareAsync (autoinstaller : string) (completed : bool)
| ExecuteLifecycleCommand (command : string) (options : ILifecycleCommandOptions).

(** The mutable state: the two statics of [Git], process.exitCode and the
    events so far. *)
Record World : Type := {
  _hasGit : option bool;
  _gitPath : option Buffer;
  exitCode : option Z;
  events : list Event
}.

Definition startup : World :=
  {| _hasGit := None; _gitPath := None; exitCode := None; events := [] |}.

(** The surroundings, as oracles.  A probe of the PATH may answer differently
    from one spawn to the next, so [spawnSync] is indexed by the number of
    spawns made before it.  [BaseScriptAction_constructor] is [super(options)]:
    it returns, or it throws an [Error] with the given message (an action
    name that the command-line parser refuses, for one).
    [executeLifecycleCommand] returns the status that spawnSync reports for
    the script, which is never negative, and throws when there is none. *)
Record Host : Type := {
  platform : string;
  EOL : string;
  colors_enabled : bool;
  BaseScriptAction_constructor : IGlobalScriptActionOptions -> option string;
  spawnSync : nat -> string -> list string -> SpawnSyncReturns;
  gitInfo : Completion GitRepoInfo;
  executeCommandAndCaptureOutput : string -> list string -> string -> Completion string;
  getEmailExampleLines : RushConfiguration -> list string;
  FileSystem_exists : string -> bool;
  JsonFile_load : string -> Completion IPackageJson;
  validateName : string -> Completion unit;
  prepareAsync : string -> RushConfiguration -> Completion unit;
  executeLifecycleCommand : string -> ILifecycleCommandOptions -> Completion N
}.

(** ** The monad of the embedding *)

Definition Js (A : Type) : Type := World -> Completion A * World.

Definition ret {A : Type} (a : A) : Js A := fun w => (Normal a, w).

Definition throw {A : Type} (e : JsError) : Js A := fun w => (Abrupt e, w).

Definition bind {A B : Type} (c : Js A) (k : A -> Js B) : Js B :=
  fun w =>
    match c w with
    | (Normal a, w') => k a w'
    | (Abrupt e, w') => (Abrupt e, w')
    end.

Definition tryCatch {A : Type} (body : Js A) (handler : JsError -> Js A) : Js A :=
  fun w =>
    match body w with
    | (Normal a, w') => (Normal a, w')
    | (Abrupt e, w') => handler e w'
    end.

Definition gets {A : Type} (f : World -> A) : Js A := fun w => (Normal (f w), w).

Definition modify (f : World -> World) : Js unit := fun w => (Normal tt, f w).

(** An oracle's answer becomes the completion of the call. *)
Definition complete {A : Type} (c : Completion A) : Js A := fun w => (c, w).

Declare Scope js_scope.
Delimit Scope js_scope with js.
Notation "x <- c1 ;; c2" := (bind c1 (fun x => c2))
  (at level 100, c1 at next level, right associativity) : js_scope.
Notation "c1 ;; c2" := (bind c1 (fun _ => c2))
  (at level 100, right associativity) : js_scope.
Open Scope js_scope.

Definition set_hasGit (v : option bool) (w : World) : World :=
  {| _hasGit := v; _gitPath := _gitPath w; exitCode := exitCode w; events := events w |}.

Definition set_gitPath (v : option Buffer) (w : World) : World :=
  {| _hasGit := _hasGit w; _gitPath := v; exitCode := exitCode w; events := events w |}.

Definition set_exitCode (v : option Z) (w : World) : World :=
  {| _hasGit := _hasGit w; _gitPath := _gitPath w; exitCode := v; events := events w |}.

Definition record (e : Event) (w : World) : World :=
  {| _hasGit := _hasGit w; _gitPath := _gitPath w; exitCode := exitCode w;
     events := events w ++ [e] |}.

Definition isSpawn (e : Event) : bool :=
  match e with
  | SpawnSync _ _ => true
  | _ => false
  end.

Definition spawnCount (w : World) : nat := length (filter isSpawn (events w)).

(** The events a call added to the world it started from. *)
Definition appended (before after : World) : list Event :=
  skipn (length (events before)) (events after).

Definition console_log (text : string) : Js unit := modify (record (ConsoleLog text)).

(** The exit status a helper reports, as the JavaScript number it is. *)
Definition exitStatus (c : Completion N) : Completion Z :=
  match c with
  | Normal n => Normal (Z.of_N n)
  | Abrupt e => Abrupt e
  end.

Definition status_is (s : option Z) (n : Z) : bool :=
  match s with
  | Some z => (z =? n)%Z
  | None => false
  end.

Section Program.

Variable host : Host.

(** *** The calls that leave the process *)

Definition child_process_spawnSync (command : string) (args : list string)
  : Js SpawnSyncReturns :=
  fun w => (Normal (spawnSync host (spawnCount w) command args),
            record (SpawnSync command args) w).

Definition git_repo_info : Js GitRepoInfo :=
  modify (record GitInfo) ;; complete (gitInfo host).

Definition Utilities_executeCommandAndCaptureOutput
  (command : string) (args : list string) (cwd : string) : Js string :=
  modify (record (ExecuteCommandAndCaptureOutput command args cwd)) ;;
  complete (executeCommandAndCaptureOutput host command args cwd).

Definition Utilities_executeLifecycleCommand
  (command : string) (options : ILifecycleCommandOptions) : Js Z :=
  modify (record (ExecuteLifecycleCommand command options)) ;;
  complete (exitStatus (executeLifecycleCommand host command options)).

Definition Autoinstaller_prepareAsync (autoinstaller : string)
  (configuration : RushConfiguration) : Js unit :=
  match prepareAsync host autoinstaller configuration with
  | Normal _ => modify (record (PrepareAsync autoinstaller true))
  | Abrupt e => modify (record (PrepareAsync autoinstaller false)) ;; throw e
  end.

(** *** class Git *)

Definition getGitPath : Js (option Buffer) :=
  hasGit <- gets _hasGit ;;
  match hasGit with
  | None =>
      let command := if platform host =? "win32" then "where" else "which" in
      result <- child_process_spawnSync command ["git"] ;;
      if status_is (status result) 0 then
        modify (set_gitPath (Some (stdout result))) ;;
        modify (set_hasGit (Some (truthyBuffer (stdout result))))
      else ret tt
  | Some _ => ret tt
  end ;;
  gets _gitPath.

Definition detectIfGitIsSupported : Js bool :=
  gitPath <- getGitPath ;;
  if truthyBuffer_opt gitPath then
    tryCatch
      (info <- git_repo_info ;; ret (truthy_opt (sha info)))
      (fun _ => ret false)
  else ret false.

Definition tryGetGitEmail : Js (IResultOrError string) :=
  gitPath <- getGitPath ;;
  if negb (truthyBuffer_opt gitPath) then
    ret {| error := Some (Error "Git isn't present on the path"); result := None |}
  else
    tryCatch
      (output <- Utilities_executeCommandAndCaptureOutput "git" ["config"; "user.email"] "." ;;
       ret {| error := None; result := Some (trim output) |})
      (fun e => ret {| error := Some e; result := None |}).

Definition getGitEmail (configuration : RushConfiguration) : Js string :=
  emailResult <- tryGetGitEmail ;;
  match error emailResult with
  | Some e =>
      console_log
        (String.concat (EOL host)
           [ "Error: " ++ message e;
             "Unable to determine your Git configuration using this command:";
             "";
             "    git config user.email";
             "" ]) ;;
      throw AlreadyReportedError
  | None =>
      if negb (truthy_opt (result emailResult)) then
        console_log
          (String.concat (EOL host)
             ([ "This operation requires that a git email be specified.";
                "";
                "If you didn't configure your email yet, try something like this:";
                "" ]
              ++ getEmailExampleLines host configuration
              ++ [ "" ])) ;;
        throw AlreadyReportedError
      else ret (or_else (result emailResult) "")
  end.

(** *** class GlobalScriptAction *)

(** The common start of the constructor's three messages. *)
Definition specifies (action : string) : string :=
  "The custom command " ++ quoted action ++ " specifies an "
  ++ quoted "autoinstallerName" ++ " setting".

(** [super(options)]: the constructor of the base classes.  When it returns,
    [this.actionName] and [this.rushConfiguration] read what the options
    gave, and [this.customParameters] is the empty array that
    [defineScriptParameters] fills in later. *)
Definition super (options : IGlobalScriptActionOptions) : Js unit :=
  match BaseScriptAction_constructor host options with
  | None => ret tt
  | Some text => throw (Error text)
  end.

Definition new_GlobalScriptAction (options : IGlobalScriptActionOptions)
  : Js GlobalScriptAction :=
  let this_actionName := opt_actionName options in
  let this_rushConfiguration := opt_rushConfiguration options in
  let this_shellCommand := shellCommand options in
  let this_autoinstallerName := or_else (autoinstallerName options) "" in
  let build (fullPath : string) : GlobalScriptAction :=
    {| actionName := this_actionName;
       rushConfiguration := this_rushConfiguration;
       customParameters := [];
       _shellCommand := this_shellCommand;
       _autoinstallerName := this_autoinstallerName;
       _autoinstallerFullPath := fullPath |} in
  super options ;;
  if truthy this_autoinstallerName then
    complete (validateName host this_autoinstallerName) ;;
    let this_autoinstallerFullPath :=
      path_join [commonAutoinstallersFolder this_rushConfiguration;
                 this_autoinstallerName] in
    if negb (FileSystem_exists host this_autoinstallerFullPath) then
      throw (Error (specifies this_actionName
                    ++ " but the path does not exist: "
                    ++ this_autoinstallerFullPath))
    else
      let packageJsonPath := path_join [this_autoinstallerFullPath; "package.json"] in
      if negb (FileSystem_exists host packageJsonPath) then
        throw (Error (specifies this_actionName
                      ++ " whose package.json file was not found: "
                      ++ packageJsonPath))
      else
        packageJson <- complete (JsonFile_load host packageJsonPath) ;;
        if negb (name packageJson =? this_autoinstallerName) then
          throw (Error (specifies this_actionName ++ ","
                        ++ " but the package.json file's " ++ quoted "name"
                        ++ " field is not " ++ quoted this_autoinstallerName ++ ": "
                        ++ packageJsonPath))
        else ret (build this_autoinstallerFullPath)
  else ret (build "").

Definition _prepareAutoinstallerName (this : GlobalScriptAction) : Js unit :=
  Autoinstaller_prepareAsync (_autoinstallerName this) (rushConfiguration this).

(** The loop over [customParameters]: each parameter pushes onto the one
    array. *)
Definition customParameterValues (this : GlobalScriptAction) : list string :=
  fold_left (fun collected parameter => appendToArgList parameter collected)
    (customParameters this) [].

(** [shellCommand += ' ' + customParameterValues.join(' ')] under its
    guard. *)
Definition commandLine (this : GlobalScriptAction) : string :=
  let values := customParameterValues this in
  if (0 <? length values)%nat then
    _shellCommand this ++ " " ++ String.concat " " values
  else _shellCommand this.

Definition lifecycleOptions (this : GlobalScriptAction)
  (pathFolders : list string) : ILifecycleCommandOptions :=
  {| lc_rushConfiguration := rushConfiguration this;
     workingDirectory := rushJsonFolder (rushConfiguration this);
     initCwd := commonTempFolder (rushConfiguration this);
     handleOutput := false;
     environmentPathOptions :=
       {| includeRepoBin := true; additionalPathFolders := pathFolders |} |}.

Definition runAsync (this : GlobalScriptAction) : Js unit :=
  pathFolders <-
    (if truthy (_autoinstallerName this) then
       _prepareAutoinstallerName this ;;
       let autoinstallerNameBinPath :=
         path_join [_autoinstallerFullPath this; "node_modules"; ".bin"] in
       ret [autoinstallerNameBinPath]
     else ret []) ;;
  code <- Utilities_executeLifecycleCommand (commandLine this)
            (lifecycleOptions this pathFolders) ;;
  modify (set_exitCode (Some code)) ;;
  if (0 <? code)%Z then
    console_log (EOL host
                 ++ red (colors_enabled host)
                      ("The script failed with exit code " ++ string_of_Z code)) ;;
    throw AlreadyReportedError
  else ret tt.

End Program.

Arguments getGitPath host w : simpl never.

(** The answer of the PATH probe that [getGitPath] would make from [w]. *)
Definition whichGit (host : Host) (w : World) : SpawnSyncReturns :=
  spawnSync host (spawnCount w)
    (if platform host =? "win32" then "where" else "which") ["git"].

(** The event of that probe. *)
Definition whichGitEvent (host : Host) : Event :=
  SpawnSync (if platform host =? "win32" then "where" else "which") ["git"].


(** The call [git config user.email] as [tryGetGitEmail] makes it. *)
Definition gitConfigUserEmail (host : Host) : Completion string :=
  executeCommandAndCaptureOutput host "git" ["config"; "user.email"] ".".

(** ** Sample surroundings *)

Definition LF : string := String (ascii_of_nat 10) EmptyString.

Definition sample_configuration : RushConfiguration :=
  {| commonAutoinstallersFolder := "/repo/common/autoinstallers";
     rushJsonFolder := "/repo";
     commonTempFolder := "/repo/common/temp" |}.

(** A Linux machine with git on the PATH, a configured e-mail and one
    autoinstaller, [my-task]. *)
Definition linux_with_git : Host :=
  {| platform := "linux";
     EOL := LF;
     colors_enabled := true;
     BaseScriptAction_constructor := fun _ => None;
     spawnSync := fun _ _ _ => {| status := Some 0%Z; stdout := "/usr/bin/git" ++ LF |};
     gitInfo := Normal {| sha := Some "9fceb02d0ae598e95dc970b74767f19372d61af8" |};
     executeCommandAndCaptureOutput := fun _ _ _ => Normal ("bob@example.com" ++ LF);
     getEmailExampleLines := fun _ => ["    git config --local user.email bob@example.com"];
     FileSystem_exists := fun p =>
       (p =? "/repo/common/autoinstallers/my-task")
       || (p =? "/repo/common/autoinstallers/my-task/package.json");
     JsonFile_load := fun p =>
       if p =? "/repo/common/autoinstallers/my-task/package.json"
       then Normal {| name := "my-task" |}
       else Abrupt (Error "File does not exist");
     validateName := fun _ => Normal tt;
     prepareAsync := fun _ _ => Normal tt;
     executeLifecycleCommand := fun _ _ => Normal 0%N |}.

(** The same machine when the lifecycle script ends with the given code. *)
Definition script_exits_with (code : N) : Host :=
  {| platform := platform linux_with_git;
     EOL := EOL linux_with_git;
     colors_enabled := colors_enabled linux_with_git;
     BaseScriptAction_constructor := BaseScriptAction_constructor linux_with_git;
     spawnSync := spawnSync linux_with_git;
     gitInfo := gitInfo linux_with_git;
     executeCommandAndCaptureOutput := executeCommandAndCaptureOutput linux_with_git;
     getEmailExampleLines := getEmailExampleLines linux_with_git;
     FileSystem_exists := FileSystem_exists linux_with_git;
     JsonFile_load := JsonFile_load linux_with_git;
     validateName := validateName linux_with_git;
     prepareAsync := prepareAsync linux_with_git;
     executeLifecycleCommand := fun _ _ => Normal code |}.

(** A machine where [which git] finds nothing (exit status 1) the first
    time, and git is on the PATH from the second probe on. *)
Definition git_installed_later : Host :=
  {| platform := platform linux_with_git;
     EOL := EOL linux_with_git;
     colors_enabled := colors_enabled linux_with_git;
     BaseScriptAction_constructor := BaseScriptAction_constructor linux_with_git;
     spawnSync := fun n _ _ =>
       if (n =? 0)%nat then {| status := Some 1%Z; stdout := "" |}
       else {| status := Some 0%Z; stdout := "/usr/bin/git" ++ LF |};
     gitInfo := gitInfo linux_with_git;
     executeCommandAndCaptureOutput := executeCommandAndCaptureOutput linux_with_git;
     getEmailExampleLines := getEmailExampleLines linux_with_git;
     FileSystem_exists := FileSystem_exists linux_with_git;
     JsonFile_load := JsonFile_load linux_with_git;
     validateName := validateName linux_with_git;
     prepareAsync := prepareAsync linux_with_git;
     executeLifecycleCommand := executeLifecycleCommand linux_with_git |}.

(** A machine where [which git] exits with status 0 and prints nothing. *)
Definition silent_probe : Host :=
  {| platform := platform linux_with_git;
     EOL := EOL linux_with_git;
     colors_enabled := colors_enabled linux_with_git;
     BaseScriptAction_constructor := BaseScriptAction_constructor linux_with_git;
     spawnSync := fun _ _ _ => {| status := Some 0%Z; stdout := "" |};
     gitInfo := gitInfo linux_with_git;
     executeCommandAndCaptureOutput := executeCommandAndCaptureOutput linux_with_git;
     getEmailExampleLines := getEmailExampleLines linux_with_git;
     FileSystem_exists := FileSystem_exists linux_with_git;
     JsonFile_load := JsonFile_load linux_with_git;
     validateName := validateName linux_with_git;
     prepareAsync := prepareAsync linux_with_git;
     executeLifecycleCommand := executeLifecycleCommand linux_with_git |}.

(** A machine where [which git] never finds git. *)
Definition linux_without_git : Host :=
  {| platform := platform linux_with_git;
     EOL := EOL linux_with_git;
     colors_enabled := colors_enabled linux_with_git;
     BaseScriptAction_constructor := BaseScriptAction_constructor linux_with_git;
     spawnSync := fun _ _ _ => {| status := Some 1%Z; stdout := "" |};
     gitInfo := gitInfo linux_with_git;
     executeCommandAndCaptureOutput := fun _ _ _ => Abrupt (Error "spawnSync git ENOENT");
     getEmailExampleLines := getEmailExampleLines linux_with_git;
     FileSystem_exists := FileSystem_exists linux_with_git;
     JsonFile_load := JsonFile_load linux_with_git;
     validateName := validateName linux_with_git;
     prepareAsync := prepareAsync linux_with_git;
     executeLifecycleCommand := executeLifecycleCommand linux_with_git |}.

(** ** Views of an action that the statements use *)

(** The folders [runAsync] hands to the command as additional PATH entries. *)
Definition pathFoldersOf (this : GlobalScriptAction) : list string :=
  if truthy (_autoinstallerName this) then
    [path_join [_autoinstallerFullPath this; "node_modules"; ".bin"]]
  else [].

(** Whether the step before the command completes: there is no autoinstaller,
    or its [prepareAsync] returns. *)
Definition preparationCompletes (host : Host) (this : GlobalScriptAction) : bool :=
  if truthy (_autoinstallerName this) then
    match prepareAsync host (_autoinstallerName this) (rushConfiguration this) with
    | Normal _ => true
    | Abrupt _ => false
    end
  else true.

(** How the lifecycle command of the action ends on this host. *)
Definition lifecycleExit (host : Host) (this : GlobalScriptAction) : Completion Z :=
  exitStatus (executeLifecycleCommand host (commandLine this)
                (lifecycleOptions this (pathFoldersOf this))).

(** What [runAsync] prints when the script fails. *)
Definition scriptFailed (host : Host) (code : Z) : Event :=
  ConsoleLog (EOL host
              ++ red (colors_enabled host)
                   ("The script failed with exit code " ++ string_of_Z code)).

(** The two paths the constructor checks. *)
Definition autoinstallerFolder (options : IGlobalScriptActionOptions) : string :=
  path_join [commonAutoinstallersFolder (opt_rushConfiguration options);
             or_else (autoinstallerName options) ""].

Definition autoinstallerPackageJson (options : IGlobalScriptActionOptions) : string :=
  path_join [autoinstallerFolder options; "package.json"].

(** ** Sample actions *)

(** Two parameter kinds of ts-command-line, by what they push: a flag pushes
    its long name when set, a string parameter its long name and its value. *)
Definition flagParameter (longName : string) (value : bool) : CommandLineParameter :=
  {| appendToArgList := fun argList =>
       if value then (argList ++ [longName])%list else argList |}.

Definition stringParameter (longName : string) (value : option string)
  : CommandLineParameter :=
  {| appendToArgList := fun argList =>
       match value with
       | Some v => (argList ++ [longName; v])%list
       | None => argList
       end |}.

Definition deploy_options : IGlobalScriptActionOptions :=
  {| opt_actionName := "deploy";
     opt_rushConfiguration := sample_configuration;
     shellCommand := "node common/scripts/deploy.js";
     autoinstallerName := Some "my-task" |}.

(** The action that the constructor returns for [deploy_options]. *)
Definition deploy_as_constructed : GlobalScriptAction :=
  {| actionName := "deploy";
     rushConfiguration := sample_configuration;
     customParameters := [];
     _shellCommand := "node common/scripts/deploy.js";
     _autoinstallerName := "my-task";
     _autoinstallerFullPath := "/repo/common/autoinstallers/my-task" |}.

(** An action once [defineScriptParameters] and the parser have filled its
    [customParameters]. *)
Definition withCustomParameters (this : GlobalScriptAction)
  (parameters : list CommandLineParameter) : GlobalScriptAction :=
  {| actionName := actionName this;
     rushConfiguration := rushConfiguration this;
     customParameters := parameters;
     _shellCommand := _shellCommand this;
     _autoinstallerName := _autoinstallerName this;
     _autoinstallerFullPath := _autoinstallerFullPath this |}.

(** The same action once its parameters are defined and parsed. *)
Definition deploy : GlobalScriptAction :=
  {| actionName := "deploy";
     rushConfiguration := sample_configuration;
     customParameters :=
       [flagParameter "--verbose" true; stringParameter "--target" (Some "prod")];
     _shellCommand := "node common/scripts/deploy.js";
     _autoinstallerName := "my-task";
     _autoinstallerFullPath := "/repo/common/autoinstallers/my-task" |}.

(** A global command with no autoinstaller and no parameter. *)
Definition clean : GlobalScriptAction :=
  {| actionName := "clean";
     rushConfiguration := sample_configuration;
     customParameters := [];
     _shellCommand := "git clean -dfx";
     _autoinstallerName := "";
     _autoinstallerFullPath := "" |}.

(** ** The scheduler of the design document

    The scheduler and the operation runner are not among the source files
    embedded above; this module follows sections 3, 4.4, 4.5 and 6 of the
    design document. *)

Module Scheduler.

(** Modelled from the spec: the per-operation state machine of section 4.4,
    whose source is missing here. *)
Inductive Status : Type :=
| PENDING | READY | CACHE_HIT | EXECUTING | SUCCESS | FAILURE | SKIPPED.

Definition Key : Type := string.

(** Modelled from the spec: an Operation of section 3 (the scheduler's
    source is missing), with its unique key, its predecessor keys and its
    mutable status. *)
Record Operation : Type := {
  key : Key;
  predecessors : list Key;
  status : Status
}.

Definition OperationGraph : Type := list Operation.

Inductive FailurePolicy : Type := fail_fast | continue.

(** Modelled from the spec: the run options of section 6 that the
    scheduler reads; the scheduler's source is missing. *)
Record RunOptions : Type := {
  maxConcurrency : nat;
  failurePolicy : FailurePolicy;
  cacheEnabled : bool
}.

(** Modelled from the spec: the state shared by the workers (section 5),
    whose source is missing: the graph with its statuses, the ready queue,
    the fixed pool of workers, each idle or holding the operation it
    executes, and whether a failure has occurred. *)
Record State : Type := {
  operations : OperationGraph;
  readyQueue : list Key;
  workers : list (option Key);
  failed : bool
}.

(** What a worker does: it takes the head of the ready queue, the runner
    finding the result in the cache or not, or it finishes the operation
    it holds. *)
Inductive WorkerEvent : Type :=
| Dispatch (worker : nat) (cacheHit : bool)
| Complete (worker : nat) (succeeded : bool).

Definition isExecuting (s : Status) : bool :=
  match s with EXECUTING => true | _ => false end.

Definition isPending (s : Status) : bool :=
  match s with PENDING => true | _ => false end.

(** "Completed successfully" for downstream readiness. *)
Definition completed (s : Status) : bool :=
  match s with SUCCESS | CACHE_HIT => true | _ => false end.

Definition failedOrSkipped (s : Status) : bool :=
  match s with FAILURE | SKIPPED => true | _ => false end.

Definition withStatus (op : Operation) (s : Status) : Operation :=
  {| key := key op; predecessors := predecessors op; status := s |}.

Definition statusOf (g : OperationGraph) (k : Key) : option Status :=
  option_map status (find (fun op => key op =? k) g).

Definition setStatus (k : Key) (s : Status) (g : OperationGraph) : OperationGraph :=
  map (fun op => if key op =? k then withStatus op s else op) g.

Fixpoint setSlot (i : nat) (v : option Key) (pool : list (option Key))
  : list (option Key) :=
  match pool, i with
  | [], _ => []
  | _ :: rest, O => v :: rest
  | slot :: rest, S j => slot :: setSlot j v rest
  end.

(** The operations in the EXECUTING state. *)
Definition executing (g : OperationGraph) : list Operation :=
  filter (fun op => isExecuting (status op)) g.

Fixpoint uniqueKeys (g : OperationGraph) : bool :=
  match g with
  | [] => true
  | op :: rest =>
      negb (existsb (fun other => key other =? key op) rest) && uniqueKeys rest
  end.

Definition anyFailedOrSkipped (g : OperationGraph) (ks : list Key) : bool :=
  existsb (fun k => match statusOf g k with
                    | Some s => failedOrSkipped s
                    | None => false
                    end) ks.

Definition allCompleted (g : OperationGraph) (ks : list Key) : bool :=
  forallb (fun k => match statusOf g k with
                    | Some s => completed s
                    | None => false
                    end) ks.

Definition becomesSkipped (g : OperationGraph) (op : Operation) : bool :=
  isPending (status op) && anyFailedOrSkipped g (predecessors op).

Definition becomesReady (g : OperationGraph) (op : Operation) : bool :=
  isPending (status op)
  && negb (anyFailedOrSkipped g (predecessors op))
  && allCompleted g (predecessors op).

(** Modelled from the spec: the successor rule of section 4.4 (source
    missing).  A pending operation with a FAILURE or SKIPPED predecessor
    goes to SKIPPED; one whose predecessors have all completed
    successfully becomes READY. *)
Definition settleOperation (g : OperationGraph) (op : Operation) : Operation :=
  if becomesSkipped g op then withStatus op SKIPPED
  else if becomesReady g op then withStatus op READY
  else op.

(** One pass of that rule over the graph; the newly ready operations join
    the queue. *)
Definition settlePass (st : State) : State :=
  {| operations := map (settleOperation (operations st)) (operations st);
     readyQueue := readyQueue st
                   ++ map key (filter (becomesReady (operations st)) (operations st));
     workers := workers st;
     failed := failed st |}.

(** SKIPPED is terminal, so it propagates: the passes are repeated, once
    per operation at most. *)
Fixpoint settle (passes : nat) (st : State) : State :=
  match passes with
  | O => st
  | S n => settle n (settlePass st)
  end.

(** Modelled from the spec: the initial state of the algorithm of section
    4.4 (source missing): the operations with no predecessor are READY and
    queued, the others PENDING, and the pool has [maxConcurrency] idle
    workers. *)
Definition start (options : RunOptions) (g : OperationGraph) : State :=
  let initial (op : Operation) : Status :=
    match predecessors op with
    | [] => READY
    | _ :: _ => PENDING
    end in
  {| operations := map (fun op => withStatus op (initial op)) g;
     readyQueue := map key (filter (fun op => match predecessors op with
                                              | [] => true
                                              | _ :: _ => false
                                              end) g);
     workers := repeat None (maxConcurrency options);
     failed := false |}.

(** Under fail-fast nothing new is dispatched once a failure occurred. *)
Definition dispatchingStopped (options : RunOptions) (st : State) : bool :=
  match failurePolicy options with
  | fail_fast => failed st
  | continue => false
  end.

(** Modelled from the spec: one action of a worker, after sections 4.4 and
    4.5 (source missing).  An idle worker dequeues a ready operation; on a
    cache hit the operation is CACHE_HIT at once, otherwise it is
    EXECUTING in that worker's slot until the worker completes it with
    SUCCESS or FAILURE.  Every terminal transition settles the successors.
    [None]: the action is not possible in this state. *)
Definition step (options : RunOptions) (st : State) (e : WorkerEvent) : option State :=
  match e with
  | Dispatch worker cacheHit =>
      match nth_error (workers st) worker, readyQueue st with
      | Some None, k :: queue =>
          if dispatchingStopped options st then None
          else if cacheHit then
            if cacheEnabled options then
              Some (settle (length (operations st))
                      {| operations := setStatus k CACHE_HIT (operations st);
                         readyQueue := queue;
                         workers := workers st;
                         failed := failed st |})
            else None
          else
            Some {| operations := setStatus k EXECUTING (operations st);
                    readyQueue := queue;
                    workers := setSlot worker (Some k) (workers st);
                    failed := failed st |}
      | _, _ => None
      end
  | Complete worker succeeded =>
      match nth_error (workers st) worker with
      | Some (Some k) =>
          Some (settle (length (operations st))
                  {| operations :=
                       setStatus k (if succeeded then SUCCESS else FAILURE)
                         (operations st);
                     readyQueue := readyQueue st;
                     workers := setSlot worker None (workers st);
                     failed := failed st || negb succeeded |})
      | _ => None
      end
  end.

(** A run: the workers' actions, one after the other. *)
Fixpoint steps (options : RunOptions) (st : State) (es : list WorkerEvent)
  : option State :=
  match es with
  | [] => Some st
  | e :: rest =>
      match step options st e with
      | Some st' => steps options st' rest
      | None => None
      end
  end.

Definition run (options : RunOptions) (g : OperationGraph) (es : list WorkerEvent)
  : option State :=
  steps options (start options g) es.

(** Every executing operation sits in the slot of some worker. *)
Definition covered (st : State) : Prop :=
  forall op, In op (operations st) -> status op = EXECUTING ->
             In (Some (key op)) (workers st).

(** The invariant of a run: the pool keeps its size, the keys stay unique
    and the executing operations are covered by the workers' slots. *)
Definition poolInvariant (options : RunOptions) (st : State) : Prop :=
  length (workers st) = maxConcurrency options /\
  NoDup (map key (operations st)) /\
  covered st.

(** The scenario of section 8: [app] depends on [lib], [lib] on [core];
    [docs] depends on nothing. *)
Definition operation (k : Key) (preds : list Key) : Operation :=
  {| key := k; predecessors := preds; status := PENDING |}.

Definition workspace : OperationGraph :=
  [operation "core" []; operation "lib" ["core"]; operation "app" ["lib"];
   operation "docs" []; operation "tools" []].

Definition two_workers : RunOptions :=
  {| maxConcurrency := 2; failurePolicy := continue; cacheEnabled := true |}.

End Scheduler.


(** ** Sequences of calls

    The statics of [Git] and process.exitCode live as long as the process,
    so what one call leaves behind is what the next one starts from. *)

Inductive Call : Type :=
| Call_getGitPath
| Call_detectIfGitIsSupported
| Call_tryGetGitEmail
| Call_getGitEmail (configuration : RushConfiguration)
| Call_new_GlobalScriptAction (options : IGlobalScriptActionOptions)
| Call_runAsync (this : GlobalScriptAction).

(** The world a call leaves, whether it returned or threw. *)
Definition worldAfter (host : Host) (c : Call) (w : World) : World :=
  match c with
  | Call_getGitPath => snd (getGitPath host w)
  | Call_detectIfGitIsSupported => snd (detectIfGitIsSupported host w)
  | Call_tryGetGitEmail => snd (tryGetGitEmail host w)
  | Call_getGitEmail configuration => snd (getGitEmail host configuration w)
  | Call_new_GlobalScriptAction options => snd (new_GlobalScriptAction host options w)
  | Call_runAsync this => snd (runAsync host this w)
  end.

Definition worldAfterAll (host : Host) (calls : list Call) (w : World) : World :=
  fold_left (fun w0 c => worldAfter host c w0) calls w.

Definition isRunAsync (c : Call) : bool :=
  match c with
  | Call_runAsync _ => true
  | _ => false
  end.

(** [w'] is [w] with the events [l] added and nothing else changed. *)
Definition logged (w w' : World) (l : list Event) : Prop :=
  _hasGit w' = _hasGit w /\
  _gitPath w' = _gitPath w /\
  exitCode w' = exitCode w /\
  events w' = (events w ++ l)%list.

(** The two statics of [Git] agree: nothing is cached, or the output of a
    probe is cached and the flag is true. *)
Definition staticsConsistent (w : World) : Prop :=
  match _hasGit w with
  | None => _gitPath w = None
  | Some b => exists path, _gitPath w = Some path /\ b = true
  end.

Definition isCommand (e : Event) : bool :=
  match e with
  | ExecuteLifecycleCommand _ _ => true
  | _ => false
  end.

Definition isConsoleLog (e : Event) : bool :=
  match e with
  | ConsoleLog _ => true
  | _ => false
  end.

Definition firstChar (s : string) : option ascii :=
  match s with
  | EmptyString => None
  | String c _ => Some c
  end.

Fixpoint lastChar (s : string) : option ascii :=
  match s with
  | EmptyString => None
  | String c EmptyString => Some c
  | String _ rest => lastChar rest
  end.

(** A machine like [linux_with_git] whose autoinstaller cannot be installed
    and whose lifecycle command cannot be started. *)
Definition broken_machine : Host :=
  {| platform := platform linux_with_git;
     EOL := EOL linux_with_git;
     colors_enabled := colors_enabled linux_with_git;
     BaseScriptAction_constructor := BaseScriptAction_constructor linux_with_git;
     spawnSync := spawnSync linux_with_git;
     gitInfo := gitInfo linux_with_git;
     executeCommandAndCaptureOutput := executeCommandAndCaptureOutput linux_with_git;
     getEmailExampleLines := getEmailExampleLines linux_with_git;
     FileSystem_exists := FileSystem_exists linux_with_git;
     JsonFile_load := JsonFile_load linux_with_git;
     validateName := validateName linux_with_git;
     prepareAsync := fun _ _ => Abrupt (Error "npm install failed");
     executeLifecycleCommand := fun _ _ => Abrupt (Error "spawnSync /bin/sh ENOENT") |}.

(** ** Facts about strings and the world *)

Lemma truthy_true_iff (s : string) : truthy s = true <-> s <> "".
Proof.
  unfold truthy. destruct (String.eqb_spec s ""); simpl; split; congruence.
Qed.

Lemma truthy_false_iff (s : string) : truthy s = false <-> s = "".
Proof.
  unfold truthy. destruct (String.eqb_spec s ""); simpl; split; congruence.
Qed.

Lemma truthy_opt_true_iff (o : option string) :
  truthy_opt o = true <-> exists s, o = Some s /\ s <> "".
Proof.
  destruct o as [s|]; simpl.
  - rewrite truthy_true_iff. split.
    + intros Hs. exists s. split; [reflexivity | exact Hs].
    + intros [s' [Heq Hs']]. injection Heq as ->. exact Hs'.
  - split; [discriminate | intros [s [Heq _]]; discriminate].
Qed.

Lemma truthyBuffer_opt_true_iff (o : option Buffer) :
  truthyBuffer_opt o = true <-> exists path, o = Some path.
Proof.
  destruct o as [path|]; simpl; split.
  - intros _. exists path. reflexivity.
  - reflexivity.
  - discriminate.
  - intros [path Hpath]. discriminate Hpath.
Qed.

Lemma truthyBuffer_opt_false_iff (o : option Buffer) :
  truthyBuffer_opt o = false <-> o = None.
Proof.
  destruct o as [path|]; simpl; split; intros H; try reflexivity; discriminate H.
Qed.

Lemma or_else_truthy (o : option string) (d : string) :
  truthy_opt o = true -> o = Some (or_else o d).
Proof.
  destruct o as [s|]; simpl; [|discriminate].
  intros ->. reflexivity.
Qed.

Lemma appended_record (w : World) (e : Event) : appended w (record e w) = [e].
Proof.
  unfold appended, record; simpl.
  rewrite skipn_app, skipn_all, Nat.sub_diag. reflexivity.
Qed.

Lemma appended_self (w : World) : appended w w = [].
Proof. unfold appended. apply skipn_all. Qed.

Lemma appended_app (w w' : World) (l : list Event) :
  events w' = (events w ++ l)%list -> appended w w' = l.
Proof.
  unfold appended. intros ->.
  rewrite skipn_app, skipn_all, Nat.sub_diag. reflexivity.
Qed.

(** ** Git.getGitPath *)

(** The three paths through [getGitPath]. *)
Lemma getGitPath_cached (host : Host) (w : World) (b : bool) :
  _hasGit w = Some b -> getGitPath host w = (Normal (_gitPath w), w).
Proof.
  intros Hb. unfold getGitPath, bind, gets, ret. rewrite Hb. reflexivity.
Qed.

Lemma getGitPath_probe_ok (host : Host) (w : World) :
  _hasGit w = None ->
  status_is (status (whichGit host w)) 0 = true ->
  getGitPath host w =
    (Normal (Some (stdout (whichGit host w))),
     set_hasGit (Some (truthyBuffer (stdout (whichGit host w))))
       (set_gitPath (Some (stdout (whichGit host w)))
          (record (whichGitEvent host) w))).
Proof.
  intros Hnone Hok.
  unfold getGitPath, bind, gets, ret, child_process_spawnSync, modify.
  rewrite Hnone. fold (whichGit host w). rewrite Hok. reflexivity.
Qed.

Lemma getGitPath_probe_failed (host : Host) (w : World) :
  _hasGit w = None ->
  status_is (status (whichGit host w)) 0 = false ->
  getGitPath host w = (Normal (_gitPath w), record (whichGitEvent host) w).
Proof.
  intros Hnone Hko.
  unfold getGitPath, bind, gets, ret, child_process_spawnSync, modify.
  rewrite Hnone. fold (whichGit host w). rewrite Hko. reflexivity.
Qed.

(** [getGitPath] never throws, and it adds at most the one probe event. *)
Lemma getGitPath_returns (host : Host) (w : World) :
  exists p w',
    getGitPath host w = (Normal p, w') /\
    (appended w w' = [] \/ appended w w' = [whichGitEvent host]).
Proof.
  destruct (_hasGit w) as [b|] eqn:Hhas.
  - exists (_gitPath w), w. split.
    + exact (getGitPath_cached host w b Hhas).
    + left. apply appended_self.
  - destruct (status_is (status (whichGit host w)) 0) eqn:Hst.
    + eexists _, _. split.
      * exact (getGitPath_probe_ok host w Hhas Hst).
      * right. apply appended_app. reflexivity.
    + eexists _, _. split.
      * exact (getGitPath_probe_failed host w Hhas Hst).
      * right. apply appended_record.
Qed.

(** Once a probe has exited with status 0 the statics are set, and every
    later call answers from them without another probe. *)
Lemma getGitPath_memoized (host : Host) (w : World) :
  _hasGit w = None ->
  status_is (status (whichGit host w)) 0 = true ->
  forall p w1, getGitPath host w = (Normal p, w1) ->
    getGitPath host w1 = (Normal p, w1).
Proof.
  intros Hnone Hok p w1 Hrun.
  rewrite (getGitPath_probe_ok host w Hnone Hok) in Hrun.
  injection Hrun as <- <-.
  erewrite getGitPath_cached; reflexivity.
Qed.

(** A probe that does not exit with status 0 leaves both statics unset, so
    the next call finds [_hasGit] undefined and probes again. *)
Lemma getGitPath_failed_probe_not_cached (host : Host) (w : World) :
  _hasGit w = None ->
  status_is (status (whichGit host w)) 0 = false ->
  _hasGit (snd (getGitPath host w)) = None /\
  _gitPath (snd (getGitPath host w)) = _gitPath w /\
  spawnCount (snd (getGitPath host w)) = S (spawnCount w).
Proof.
  intros Hnone Hko. rewrite (getGitPath_probe_failed host w Hnone Hko). simpl.
  split; [exact Hnone|]. split; [reflexivity|].
  unfold spawnCount, whichGitEvent. simpl.
  rewrite filter_app, length_app. simpl. lia.
Qed.

(** C5 (the code at the failing input): on a machine where the first
    [which git] exits with status 1 and git is installed afterwards, two
    successive calls of [getGitPath] from process start spawn the probe
    twice, and they return different values: undefined, then the path. *)
Lemma getGitPath_probes_again_after_failed_probe :
  let first := getGitPath git_installed_later startup in
  let second := getGitPath git_installed_later (snd first) in
  fst first = Normal None /\
  _hasGit (snd first) = None /\
  fst second = Normal (Some ("/usr/bin/git" ++ LF)) /\
  events (snd second) = [SpawnSync "which" ["git"]; SpawnSync "which" ["git"]] /\
  fst first <> fst second.
Proof.
  vm_compute. repeat split. discriminate.
Qed.

(** On a machine without git every call spawns the probe anew. *)
Lemma getGitPath_without_git_probes_every_time :
  let first := getGitPath linux_without_git startup in
  let second := getGitPath linux_without_git (snd first) in
  let third := getGitPath linux_without_git (snd second) in
  spawnCount (snd third) = 3.
Proof. vm_compute. reflexivity. Qed.

(** ** Git.detectIfGitIsSupported *)

Lemma detectIfGitIsSupported_eq (host : Host) (w w1 : World) (p : option Buffer) :
  getGitPath host w = (Normal p, w1) ->
  detectIfGitIsSupported host w =
    if truthyBuffer_opt p then
      match gitInfo host with
      | Normal info => (Normal (truthy_opt (sha info)), record GitInfo w1)
      | Abrupt _ => (Normal false, record GitInfo w1)
      end
    else (Normal false, w1).
Proof.
  intros Hget. unfold detectIfGitIsSupported, bind. rewrite Hget.
  destruct (truthyBuffer_opt p); [|reflexivity].
  unfold tryCatch, git_repo_info, bind, modify, complete, ret.
  destruct (gitInfo host); reflexivity.
Qed.

(** C6: [detectIfGitIsSupported] always returns a boolean and never throws.
    The boolean is false when [getGitPath] finds no git path (it returns
    undefined), false when reading the repository info throws, and true
    exactly when [getGitPath] returns a path and the repository info has a
    non-empty sha. *)
Theorem detectIfGitIsSupported_total (host : Host) (w : World) :
  exists (b : bool) (p : option Buffer),
    fst (detectIfGitIsSupported host w) = Normal b /\
    fst (getGitPath host w) = Normal p /\
    (p = None -> b = false) /\
    ((exists e, gitInfo host = Abrupt e) -> b = false) /\
    (b = true <->
       (exists path, p = Some path) /\
       (exists info s, gitInfo host = Normal info /\ sha info = Some s /\ s <> "")).
Proof.
  destruct (getGitPath_returns host w) as (p & w1 & Hget & _).
  rewrite (detectIfGitIsSupported_eq host w w1 p Hget), Hget. simpl.
  destruct p as [path|]; simpl.
  - destruct (gitInfo host) as [info|e] eqn:Hinfo.
    + exists (truthy_opt (sha info)), (Some path). simpl.
      split; [reflexivity|]. split; [reflexivity|].
      split; [discriminate|].
      split; [intros [e He]; discriminate He|].
      rewrite truthy_opt_true_iff. split.
      * intros [s [Hs Hne]]. split.
        -- exists path. reflexivity.
        -- exists info, s. auto.
      * intros [_ [info' [s [Heq [Hs Hne]]]]].
        injection Heq as <-. exists s. auto.
    + exists false, (Some path). simpl.
      split; [reflexivity|]. split; [reflexivity|].
      split; [reflexivity|]. split; [reflexivity|].
      split; [discriminate|].
      intros [_ [info [s [Heq _]]]]. discriminate.
  - exists false, None. simpl.
    split; [reflexivity|]. split; [reflexivity|].
    split; [reflexivity|]. split; [reflexivity|].
    split; [discriminate|].
    intros [[path Hpath] _]. discriminate Hpath.
Qed.

(** ** Git.tryGetGitEmail and Git.getGitEmail *)

Lemma tryGetGitEmail_eq (host : Host) (w w1 : World) (p : option Buffer) :
  getGitPath host w = (Normal p, w1) ->
  tryGetGitEmail host w =
    if truthyBuffer_opt p then
      (Normal
         match gitConfigUserEmail host with
         | Normal output => {| error := None; result := Some (trim output) |}
         | Abrupt e => {| error := Some e; result := None |}
         end,
       record (ExecuteCommandAndCaptureOutput "git" ["config"; "user.email"] ".") w1)
    else
      (Normal {| error := Some (Error "Git isn't present on the path"); result := None |},
       w1).
Proof.
  intros Hget. unfold tryGetGitEmail, bind. rewrite Hget.
  destruct (truthyBuffer_opt p); [|reflexivity]. simpl.
  unfold tryCatch, Utilities_executeCommandAndCaptureOutput, bind, modify, complete, ret.
  unfold gitConfigUserEmail.
  destruct (executeCommandAndCaptureOutput host "git" ["config"; "user.email"] ".");
    reflexivity.
Qed.

(** C9: [tryGetGitEmail] always returns a record with exactly one of its two
    fields set: [error] when git is absent from the path ([getGitPath]
    returns undefined) or the git command throws (then [result] is unset),
    [result] with the trimmed output when the command succeeds (then [error]
    is unset). *)
Theorem tryGetGitEmail_result_xor_error (host : Host) (w : World) :
  exists (r : IResultOrError string) (p : option Buffer),
    fst (tryGetGitEmail host w) = Normal r /\
    fst (getGitPath host w) = Normal p /\
    ((exists e, error r = Some e /\ result r = None /\
                (p = None \/
                 (exists path, p = Some path) /\ gitConfigUserEmail host = Abrupt e))
     \/
     (error r = None /\
      exists output, (exists path, p = Some path) /\
                     gitConfigUserEmail host = Normal output /\
                     result r = Some (trim output))).
Proof.
  destruct (getGitPath_returns host w) as (p & w1 & Hget & _).
  rewrite (tryGetGitEmail_eq host w w1 p Hget), Hget.
  destruct p as [path|]; simpl.
  - destruct (gitConfigUserEmail host) as [output|e] eqn:Hcmd.
    + eexists _, (Some path). split; [reflexivity|]. split; [reflexivity|].
      right. simpl. split; [reflexivity|]. exists output.
      split; [exists path; reflexivity | auto].
    + eexists _, (Some path). split; [reflexivity|]. split; [reflexivity|].
      left. exists e. simpl. split; [reflexivity|]. split; [reflexivity|].
      right. split; [exists path; reflexivity | reflexivity].
  - eexists _, None. split; [reflexivity|]. split; [reflexivity|].
    left. eexists. simpl. auto.
Qed.

(** The conditions under which [getGitEmail] cannot return an address: git
    is not on the path ([getGitPath] returns undefined), the git command
    throws, or its trimmed output is empty. *)
Definition noGitEmail (host : Host) (p : option Buffer) : Prop :=
  p = None \/
  (exists e, gitConfigUserEmail host = Abrupt e) \/
  (exists output, gitConfigUserEmail host = Normal output /\ trim output = "").

(** C7: [getGitEmail] either returns the trimmed output of
    [git config user.email] or throws [AlreadyReportedError] with a
    diagnostic as the last thing printed.  It throws exactly when git is not
    on the path, or the git command throws, or the trimmed output is empty. *)
Theorem getGitEmail_returns_or_reports
  (host : Host) (configuration : RushConfiguration) (w : World) :
  exists p : option Buffer,
    fst (getGitPath host w) = Normal p /\
    (noGitEmail host p ->
       fst (getGitEmail host configuration w) = Abrupt AlreadyReportedError /\
       exists earlier text,
         events (snd (getGitEmail host configuration w))
         = (earlier ++ [ConsoleLog text])%list) /\
    (~ noGitEmail host p ->
       exists output,
         gitConfigUserEmail host = Normal output /\
         fst (getGitEmail host configuration w) = Normal (trim output)).
Proof.
  destruct (getGitPath_returns host w) as (p & w1 & Hget & _).
  exists p. rewrite Hget. split; [reflexivity|].
  unfold getGitEmail, bind.
  rewrite (tryGetGitEmail_eq host w w1 p Hget).
  unfold noGitEmail.
  destruct p as [path|]; simpl truthyBuffer_opt; cbv iota.
  - destruct (gitConfigUserEmail host) as [output|e] eqn:Hcmd; simpl.
    + destruct (truthy (trim output)) eqn:Htrim; simpl.
      * split.
        -- intros [Hf | [[e He] | [out [Hout Hempty]]]]; try discriminate.
           injection Hout as <-. apply truthy_true_iff in Htrim. contradiction.
        -- intros _. exists output. split; reflexivity.
      * split.
        -- intros _. split; [reflexivity|]. eexists _, _. reflexivity.
        -- intros Hnot. exfalso. apply Hnot. right. right.
           exists output. split; [reflexivity|].
           apply truthy_false_iff. exact Htrim.
    + split.
      * intros _. split; [reflexivity|]. eexists _, _. reflexivity.
      * intros Hnot. exfalso. apply Hnot. right. left. exists e. reflexivity.
  - simpl. split.
    + intros _. split; [reflexivity|]. eexists _, _. reflexivity.
    + intros Hnot. exfalso. apply Hnot. left. reflexivity.
Qed.

(** C10 (the code at the failing input): on a machine where the probe exits
    with status 0 and prints nothing, [getGitPath] caches the empty output
    with [_hasGit] true and returns it, and [detectIfGitIsSupported], for
    which that empty Buffer is truthy, reads the repository info and returns
    true. *)
Lemma detectIfGitIsSupported_true_on_empty_probe_output :
  let probe := getGitPath silent_probe startup in
  let answer := detectIfGitIsSupported silent_probe startup in
  status (whichGit silent_probe startup) = Some 0%Z /\
  stdout (whichGit silent_probe startup) = "" /\
  fst probe = Normal (Some "") /\
  _hasGit (snd probe) = Some true /\
  fst answer = Normal true /\
  events (snd answer) = [SpawnSync "which" ["git"]; GitInfo].
Proof.
  vm_compute. repeat split.
Qed.

(** Whenever the probe runs and exits with status 0, whatever it prints,
    [_hasGit] becomes true and [detectIfGitIsSupported] reads the repository
    info. *)
Lemma detectIfGitIsSupported_after_probe_ok (host : Host) (w : World) :
  _hasGit w = None ->
  status (whichGit host w) = Some 0%Z ->
  _hasGit (snd (getGitPath host w)) = Some true /\
  In GitInfo (appended w (snd (detectIfGitIsSupported host w))).
Proof.
  intros Hnone Hstatus.
  assert (Hok : status_is (status (whichGit host w)) 0 = true)
    by (rewrite Hstatus; reflexivity).
  pose proof (getGitPath_probe_ok host w Hnone Hok) as Hget.
  rewrite (detectIfGitIsSupported_eq host w _ _ Hget), Hget.
  split; [reflexivity|]. simpl truthyBuffer_opt. cbv iota.
  assert (Hev : forall r : Completion bool * World,
            snd r = record GitInfo
                      (set_hasGit (Some (truthyBuffer (stdout (whichGit host w))))
                         (set_gitPath (Some (stdout (whichGit host w)))
                            (record (whichGitEvent host) w))) ->
            In GitInfo (appended w (snd r))).
  { intros r ->. erewrite appended_app by (simpl; rewrite <- app_assoc; reflexivity).
    right. left. reflexivity. }
  destruct (gitInfo host); apply Hev; reflexivity.
Qed.

(** *** The Git calls on the sample machines *)

Example trim_email : trim ("  bob@example.com" ++ LF) = "bob@example.com".
Proof. vm_compute. reflexivity. Qed.

Example trim_blank : trim (" " ++ LF) = "".
Proof. vm_compute. reflexivity. Qed.

Example getGitEmail_with_git :
  getGitEmail linux_with_git sample_configuration startup
  = (Normal "bob@example.com",
     {| _hasGit := Some true;
        _gitPath := Some ("/usr/bin/git" ++ LF);
        exitCode := None;
        events := [SpawnSync "which" ["git"];
                   ExecuteCommandAndCaptureOutput "git" ["config"; "user.email"] "."] |}).
Proof. vm_compute. reflexivity. Qed.

Example getGitEmail_without_git :
  fst (getGitEmail linux_without_git sample_configuration startup)
  = Abrupt AlreadyReportedError /\
  events (snd (getGitEmail linux_without_git sample_configuration startup))
  = [SpawnSync "which" ["git"];
     ConsoleLog
       (String.concat LF
          ["Error: Git isn't present on the path";
           "Unable to determine your Git configuration using this command:";
           "";
           "    git config user.email";
           ""])].
Proof. vm_compute. split; reflexivity. Qed.

Example detectIfGitIsSupported_with_git :
  fst (detectIfGitIsSupported linux_with_git startup) = Normal true.
Proof. vm_compute. reflexivity. Qed.

Example detectIfGitIsSupported_without_git :
  detectIfGitIsSupported linux_without_git startup
  = (Normal false,
     {| _hasGit := None; _gitPath := None; exitCode := None;
        events := [SpawnSync "which" ["git"]] |}).
Proof. vm_compute. reflexivity. Qed.

(** ** GlobalScriptAction *)

Example deploy_constructed :
  new_GlobalScriptAction linux_with_git deploy_options startup
  = (Normal deploy_as_constructed, startup).
Proof. vm_compute. reflexivity. Qed.

Example deploy_commandLine :
  commandLine deploy = "node common/scripts/deploy.js --verbose --target prod".
Proof. vm_compute. reflexivity. Qed.

(** What the command and everything after it do, from the world [w] in which
    the command starts. *)
Lemma runAsync_eq (host : Host) (this : GlobalScriptAction) (w : World) :
  runAsync host this w =
    let run (w0 : World) :=
      let w1 := record (ExecuteLifecycleCommand (commandLine this)
                          (lifecycleOptions this (pathFoldersOf this))) w0 in
      match lifecycleExit host this with
      | Normal code =>
          if (0 <? code)%Z
          then (Abrupt AlreadyReportedError,
                record (scriptFailed host code) (set_exitCode (Some code) w1))
          else (Normal tt, set_exitCode (Some code) w1)
      | Abrupt e => (Abrupt e, w1)
      end in
    if truthy (_autoinstallerName this) then
      match prepareAsync host (_autoinstallerName this) (rushConfiguration this) with
      | Normal _ => run (record (PrepareAsync (_autoinstallerName this) true) w)
      | Abrupt e => (Abrupt e, record (PrepareAsync (_autoinstallerName this) false) w)
      end
    else run w.
Proof.
  unfold runAsync, lifecycleExit, pathFoldersOf, scriptFailed, bind,
    _prepareAutoinstallerName, Autoinstaller_prepareAsync,
    Utilities_executeLifecycleCommand, console_log, modify, complete, ret, throw.
  destruct (truthy (_autoinstallerName this)).
  - destruct (prepareAsync host (_autoinstallerName this) (rushConfiguration this));
      simpl; [|reflexivity].
    destruct (executeLifecycleCommand host _ _) as [n|e]; simpl; [|reflexivity].
    destruct (0 <? Z.of_N n)%Z; reflexivity.
  - simpl.
    destruct (executeLifecycleCommand host _ _) as [n|e]; simpl; [|reflexivity].
    destruct (0 <? Z.of_N n)%Z; reflexivity.
Qed.

(** The exit code of a lifecycle command is never negative. *)
Lemma lifecycleExit_nonnegative (host : Host) (this : GlobalScriptAction) (code : Z) :
  lifecycleExit host this = Normal code -> (0 <= code)%Z.
Proof.
  unfold lifecycleExit, exitStatus.
  destruct (executeLifecycleCommand host _ _) as [n|e]; [|discriminate].
  intros Hcode. injection Hcode as <-. apply N2Z.is_nonneg.
Qed.

(** C1: when the lifecycle command runs and returns the exit code [code],
    [runAsync] sets process.exitCode to [code]; it throws
    [AlreadyReportedError], the failure message being the last thing
    printed, exactly when [code] is not zero, and it returns normally when
    [code] is zero. *)
Theorem runAsync_exit_code
  (host : Host) (this : GlobalScriptAction) (w : World) (code : Z) :
  preparationCompletes host this = true ->
  lifecycleExit host this = Normal code ->
  exitCode (snd (runAsync host this w)) = Some code /\
  (fst (runAsync host this w) = Abrupt AlreadyReportedError <-> code <> 0%Z) /\
  (code = 0%Z -> fst (runAsync host this w) = Normal tt) /\
  (code <> 0%Z ->
   exists earlier,
     events (snd (runAsync host this w)) = (earlier ++ [scriptFailed host code])%list).
Proof.
  intros Hprep Hexit.
  pose proof (lifecycleExit_nonnegative host this code Hexit) as Hrange.
  rewrite runAsync_eq. cbv zeta. rewrite Hexit.
  unfold preparationCompletes in Hprep.
  assert (Hrun : forall w0,
    let r := if (0 <? code)%Z
             then (Abrupt AlreadyReportedError,
                   record (scriptFailed host code)
                     (set_exitCode (Some code)
                        (record (ExecuteLifecycleCommand (commandLine this)
                                   (lifecycleOptions this (pathFoldersOf this))) w0)))
             else (Normal tt,
                   set_exitCode (Some code)
                     (record (ExecuteLifecycleCommand (commandLine this)
                                (lifecycleOptions this (pathFoldersOf this))) w0)) in
    exitCode (snd r) = Some code /\
    (fst r = Abrupt AlreadyReportedError <-> code <> 0%Z) /\
    (code = 0%Z -> fst r = Normal tt) /\
    (code <> 0%Z ->
     exists earlier, events (snd r) = (earlier ++ [scriptFailed host code])%list)).
  { intros w0. cbv zeta.
    destruct (Z.ltb_spec 0 code) as [Hpos | Hnonpos]; simpl.
    - split; [reflexivity|]. split; [split; [lia | reflexivity]|].
      split; [lia|]. intros _. eexists. reflexivity.
    - split; [reflexivity|]. split; [split; [discriminate | lia]|].
      split; [reflexivity|]. lia. }
  destruct (truthy (_autoinstallerName this)).
  - destruct (prepareAsync host (_autoinstallerName this) (rushConfiguration this));
      [apply Hrun | discriminate Hprep].
  - apply Hrun.
Qed.

Lemma runAsync_exit_code_witness :
  let host := script_exits_with 3 in
  exitCode (snd (runAsync host deploy startup)) = Some 3%Z /\
  (fst (runAsync host deploy startup) = Abrupt AlreadyReportedError <-> 3%Z <> 0%Z) /\
  (3%Z = 0%Z -> fst (runAsync host deploy startup) = Normal tt) /\
  (3%Z <> 0%Z ->
   exists earlier,
     events (snd (runAsync host deploy startup)) = (earlier ++ [scriptFailed host 3])%list).
Proof.
  apply (runAsync_exit_code (script_exits_with 3) deploy startup 3);
    vm_compute; reflexivity.
Defined.

Example runAsync_exit_code_zero :
  runAsync (script_exits_with 0) clean startup
  = (Normal tt,
     {| _hasGit := None; _gitPath := None; exitCode := Some 0%Z;
        events := [ExecuteLifecycleCommand "git clean -dfx" (lifecycleOptions clean [])] |}).
Proof. vm_compute. reflexivity. Qed.

(** When the preparation of the autoinstaller throws, the command is never
    run and process.exitCode keeps the value it had. *)
Lemma runAsync_preparation_fails
  (host : Host) (this : GlobalScriptAction) (w : World) (e : JsError) :
  _autoinstallerName this <> "" ->
  prepareAsync host (_autoinstallerName this) (rushConfiguration this) = Abrupt e ->
  runAsync host this w
  = (Abrupt e, record (PrepareAsync (_autoinstallerName this) false) w).
Proof.
  intros Hname Hprep. apply truthy_true_iff in Hname.
  rewrite runAsync_eq. cbv zeta. rewrite Hname, Hprep. reflexivity.
Qed.

(** ** The constructor *)

Lemma new_GlobalScriptAction_pure (host : Host) (options : IGlobalScriptActionOptions)
  (w : World) :
  snd (new_GlobalScriptAction host options w) = w.
Proof.
  unfold new_GlobalScriptAction, super, bind, complete, throw, ret.
  destruct (BaseScriptAction_constructor host options); [reflexivity|].
  destruct (truthy (or_else (autoinstallerName options) "")); [|reflexivity].
  destruct (validateName host _); [|reflexivity].
  destruct (FileSystem_exists host _); [|reflexivity]. simpl.
  destruct (FileSystem_exists host _); [|reflexivity]. simpl.
  destruct (JsonFile_load host _) as [pkg|]; [|reflexivity].
  destruct (name pkg =? _); reflexivity.
Qed.

(** The constructor with a non-empty autoinstaller name, step by step. *)
Lemma new_GlobalScriptAction_eq (host : Host) (options : IGlobalScriptActionOptions)
  (w : World) :
  truthy (or_else (autoinstallerName options) "") = true ->
  fst (new_GlobalScriptAction host options w) =
    match BaseScriptAction_constructor host options with
    | Some text => Abrupt (Error text)
    | None =>
    match validateName host (or_else (autoinstallerName options) "") with
    | Abrupt e => Abrupt e
    | Normal _ =>
        if negb (FileSystem_exists host (autoinstallerFolder options)) then
          Abrupt (Error (specifies (opt_actionName options)
                         ++ " but the path does not exist: "
                         ++ autoinstallerFolder options))
        else if negb (FileSystem_exists host (autoinstallerPackageJson options)) then
          Abrupt (Error (specifies (opt_actionName options)
                         ++ " whose package.json file was not found: "
                         ++ autoinstallerPackageJson options))
        else
          match JsonFile_load host (autoinstallerPackageJson options) with
          | Abrupt e => Abrupt e
          | Normal packageJson =>
              if name packageJson =? or_else (autoinstallerName options) "" then
                Normal {| actionName := opt_actionName options;
                          rushConfiguration := opt_rushConfiguration options;
                          customParameters := [];
                          _shellCommand := shellCommand options;
                          _autoinstallerName := or_else (autoinstallerName options) "";
                          _autoinstallerFullPath := autoinstallerFolder options |}
              else
                Abrupt (Error (specifies (opt_actionName options) ++ ","
                               ++ " but the package.json file's " ++ quoted "name"
                               ++ " field is not "
                               ++ quoted (or_else (autoinstallerName options) "") ++ ": "
                               ++ autoinstallerPackageJson options))
          end
    end
    end.
Proof.
  intros Hname.
  unfold new_GlobalScriptAction, super, bind, complete, throw, ret.
  rewrite Hname.
  fold (autoinstallerFolder options). fold (autoinstallerPackageJson options).
  destruct (BaseScriptAction_constructor host options); [reflexivity|].
  destruct (validateName host _); [|reflexivity].
  destruct (FileSystem_exists host (autoinstallerFolder options)); [|reflexivity]. simpl.
  destruct (FileSystem_exists host (autoinstallerPackageJson options)); [|reflexivity].
  simpl.
  destruct (JsonFile_load host _) as [pkg|]; [|reflexivity].
  destruct (name pkg =? _); reflexivity.
Qed.

(** C2: with a non-empty [autoinstallerName], the constructor throws when
    the autoinstaller folder does not exist, when its package.json does not
    exist, and when the name in that package.json is another one (an [Error]
    with the constructor's message when the name itself is valid); it
    returns an action only when the three checks pass.  In every case the
    world is left as it was: no command has run. *)
Theorem constructor_checks_autoinstaller
  (host : Host) (options : IGlobalScriptActionOptions) (w : World) (n : string) :
  autoinstallerName options = Some n ->
  n <> "" ->
  snd (new_GlobalScriptAction host options w) = w /\
  (FileSystem_exists host (autoinstallerFolder options) = false \/
   FileSystem_exists host (autoinstallerPackageJson options) = false \/
   (exists packageJson,
      JsonFile_load host (autoinstallerPackageJson options) = Normal packageJson /\
      name packageJson <> n) ->
   exists e,
     fst (new_GlobalScriptAction host options w) = Abrupt e /\
     (validateName host n = Normal tt -> exists text, e = Error text)) /\
  (forall this,
     fst (new_GlobalScriptAction host options w) = Normal this ->
     FileSystem_exists host (autoinstallerFolder options) = true /\
     FileSystem_exists host (autoinstallerPackageJson options) = true /\
     exists packageJson,
       JsonFile_load host (autoinstallerPackageJson options) = Normal packageJson /\
       name packageJson = n).
Proof.
  intros Hname Hne.
  assert (Hor : or_else (autoinstallerName options) "" = n).
  { rewrite Hname. simpl. apply truthy_true_iff in Hne. rewrite Hne. reflexivity. }
  assert (Htruthy : truthy (or_else (autoinstallerName options) "") = true).
  { rewrite Hor. apply truthy_true_iff. exact Hne. }
  split; [apply new_GlobalScriptAction_pure|].
  rewrite (new_GlobalScriptAction_eq host options w Htruthy), Hor.
  destruct (BaseScriptAction_constructor host options) as [refusal|].
  { split.
    - intros _. eexists. split; [reflexivity|]. intros _. eexists. reflexivity.
    - intros this Hthis. discriminate Hthis. }
  destruct (validateName host n) as [[]|e0].
  - destruct (FileSystem_exists host (autoinstallerFolder options)); simpl.
    + destruct (FileSystem_exists host (autoinstallerPackageJson options)); simpl.
      * destruct (JsonFile_load host (autoinstallerPackageJson options)) as [pkg|e1].
        -- destruct (String.eqb_spec (name pkg) n) as [Heq|Hdiff].
           ++ split.
              ** intros [Hf | [Hf | [pkg' [Hload Hdiff]]]]; try discriminate.
                 injection Hload as <-. contradiction.
              ** intros this _. repeat split. exists pkg. auto.
           ++ split.
              ** intros _. eexists. split; [reflexivity|]. intros _. eexists. reflexivity.
              ** intros this Hthis. discriminate Hthis.
        -- split.
           ++ intros [Hf | [Hf | [pkg' [Hload _]]]]; discriminate.
           ++ intros this Hthis. discriminate Hthis.
      * split.
        -- intros _. eexists. split; [reflexivity|]. intros _. eexists. reflexivity.
        -- intros this Hthis. discriminate Hthis.
    + split.
      * intros _. eexists. split; [reflexivity|]. intros _. eexists. reflexivity.
      * intros this Hthis. discriminate Hthis.
  - split.
    + intros _. exists e0. split; [reflexivity|]. intros Hvalid. discriminate Hvalid.
    + intros this Hthis. discriminate Hthis.
Qed.

Lemma constructor_checks_autoinstaller_witness :
  snd (new_GlobalScriptAction linux_with_git deploy_options startup) = startup /\
  forall this,
    fst (new_GlobalScriptAction linux_with_git deploy_options startup) = Normal this ->
    FileSystem_exists linux_with_git (autoinstallerFolder deploy_options) = true /\
    FileSystem_exists linux_with_git (autoinstallerPackageJson deploy_options) = true /\
    exists packageJson,
      JsonFile_load linux_with_git (autoinstallerPackageJson deploy_options)
      = Normal packageJson /\
      name packageJson = "my-task".
Proof.
  destruct (constructor_checks_autoinstaller linux_with_git deploy_options startup
              "my-task") as [Hworld [_ Hchecks]].
  - reflexivity.
  - discriminate.
  - split; [exact Hworld | exact Hchecks].
Defined.

(** The constructor fills in the name and the folder that [runAsync] reads. *)
Lemma constructor_sets_fields (host : Host) (options : IGlobalScriptActionOptions)
  (w : World) (this : GlobalScriptAction) :
  fst (new_GlobalScriptAction host options w) = Normal this ->
  _shellCommand this = shellCommand options /\
  _autoinstallerName this = or_else (autoinstallerName options) "" /\
  _autoinstallerFullPath this =
    if truthy (or_else (autoinstallerName options) "")
    then autoinstallerFolder options else "".
Proof.
  destruct (truthy (or_else (autoinstallerName options) "")) eqn:Htruthy.
  - rewrite (new_GlobalScriptAction_eq host options w Htruthy).
    destruct (BaseScriptAction_constructor host options); [discriminate|].
    destruct (validateName host _); [|discriminate].
    destruct (negb (FileSystem_exists host (autoinstallerFolder options)));
      [discriminate|].
    destruct (negb (FileSystem_exists host (autoinstallerPackageJson options)));
      [discriminate|].
    destruct (JsonFile_load host _) as [pkg|]; [|discriminate].
    destruct (name pkg =? _); [|discriminate].
    intros Hthis. injection Hthis as <-. simpl. auto.
  - unfold new_GlobalScriptAction, super, bind, throw, ret. rewrite Htruthy.
    destruct (BaseScriptAction_constructor host options); [discriminate|]. simpl.
    intros Hthis. injection Hthis as <-. simpl. auto.
Qed.

(** ** The events of runAsync *)

(** Everything one call of [runAsync] adds to the world, in order. *)
Lemma runAsync_appended (host : Host) (this : GlobalScriptAction) (w : World) :
  appended w (snd (runAsync host this w)) =
    ((if truthy (_autoinstallerName this)
      then [PrepareAsync (_autoinstallerName this) (preparationCompletes host this)]
      else [])
     ++
     (if preparationCompletes host this then
        ExecuteLifecycleCommand (commandLine this)
          (lifecycleOptions this (pathFoldersOf this))
        :: match lifecycleExit host this with
           | Normal code => if (0 <? code)%Z then [scriptFailed host code] else []
           | Abrupt _ => []
           end
      else []))%list.
Proof.
  rewrite runAsync_eq. cbv zeta. unfold preparationCompletes.
  destruct (truthy (_autoinstallerName this)).
  - destruct (prepareAsync host _ _).
    + destruct (lifecycleExit host this) as [code|e];
        [destruct (0 <? code)%Z|];
        apply appended_app; simpl; rewrite <- ?app_assoc; reflexivity.
    + apply appended_app. reflexivity.
  - destruct (lifecycleExit host this) as [code|e];
      [destruct (0 <? code)%Z|];
      apply appended_app; simpl; rewrite <- ?app_assoc; reflexivity.
Qed.

(** What can follow the command in the events of one call: nothing, or the
    failure message. *)
Lemma after_command_cases (host : Host) (this : GlobalScriptAction) :
  let later := match lifecycleExit host this with
               | Normal code => if (0 <? code)%Z then [scriptFailed host code] else []
               | Abrupt _ => []
               end in
  later = [] \/ exists code, later = [scriptFailed host code].
Proof.
  cbv zeta. destruct (lifecycleExit host this) as [code|e]; [|left; reflexivity].
  destruct (0 <? code)%Z; [right; exists code|left]; reflexivity.
Qed.

(** C3: with a non-empty autoinstaller name, whenever [runAsync] executes the
    command, the completed [prepareAsync] is the event just before it, and
    the command receives exactly one additional PATH folder, node_modules/.bin
    under the autoinstaller folder; the command is executed whenever the
    preparation completes.  With an empty name the command is the first event
    and receives no additional PATH folder. *)
Theorem runAsync_prepares_before_command
  (host : Host) (this : GlobalScriptAction) (w : World) :
  let trace := appended w (snd (runAsync host this w)) in
  (_autoinstallerName this <> "" ->
   (forall command options,
      In (ExecuteLifecycleCommand command options) trace ->
      exists later,
        trace = PrepareAsync (_autoinstallerName this) true
                :: ExecuteLifecycleCommand command options :: later /\
        (later = [] \/ exists code, later = [scriptFailed host code]) /\
        additionalPathFolders (environmentPathOptions options)
        = [path_join [_autoinstallerFullPath this; "node_modules"; ".bin"]]) /\
   (prepareAsync host (_autoinstallerName this) (rushConfiguration this) = Normal tt ->
    exists command options, In (ExecuteLifecycleCommand command options) trace)) /\
  (_autoinstallerName this = "" ->
   exists command options later,
     trace = ExecuteLifecycleCommand command options :: later /\
     (later = [] \/ exists code, later = [scriptFailed host code]) /\
     additionalPathFolders (environmentPathOptions options) = []).
Proof.
  cbv zeta. rewrite runAsync_appended.
  unfold preparationCompletes, pathFoldersOf.
  pose proof (after_command_cases host this) as Hlater. cbv zeta in Hlater.
  split.
  - intros Hname. apply truthy_true_iff in Hname. rewrite Hname in *.
    destruct (prepareAsync host (_autoinstallerName this) (rushConfiguration this))
      as [[]|e]; simpl.
    + split.
      * intros command options [Hin | [Hin | Hin]]; [discriminate Hin | |].
        -- injection Hin as <- <-. eexists. split; [reflexivity|].
           split; [exact Hlater | reflexivity].
        -- exfalso. destruct Hlater as [Hl | [code Hl]]; rewrite Hl in Hin.
           ++ destruct Hin.
           ++ destruct Hin as [Hin | []]. discriminate Hin.
      * intros _. eexists _, _. right. left. reflexivity.
    + split.
      * intros command options [Hin | []]. discriminate Hin.
      * intros Hdone. discriminate Hdone.
  - intros Hname. apply truthy_false_iff in Hname. rewrite Hname in *. simpl.
    eexists _, _, _. split; [reflexivity|].
    split; [exact Hlater | reflexivity].
Qed.

Lemma customParameterValues_empty_iff (this : GlobalScriptAction) :
  (0 <? length (customParameterValues this))%nat = false <-> customParameterValues this = [].
Proof.
  destruct (customParameterValues this) as [|value values].
  - split; reflexivity.
  - unfold Nat.ltb; simpl. split; intros H; discriminate H.
Qed.

(** C4: the command string that [runAsync] executes is the configured
    [shellCommand] when no custom parameter value was collected, and
    otherwise [shellCommand], one space, and the values joined by single
    spaces.  The values travel inside that one string: the options passed
    along with it hold the folders and flags only. *)
Theorem runAsync_command_string
  (host : Host) (this : GlobalScriptAction) (w : World)
  (command : string) (options : ILifecycleCommandOptions) :
  In (ExecuteLifecycleCommand command options) (appended w (snd (runAsync host this w))) ->
  (customParameterValues this = [] -> command = _shellCommand this) /\
  (customParameterValues this <> [] ->
   command = _shellCommand this ++ " " ++ String.concat " " (customParameterValues this)) /\
  options = lifecycleOptions this (pathFoldersOf this).
Proof.
  rewrite runAsync_appended. intros Hin.
  assert (Hevent : command = commandLine this /\
                   options = lifecycleOptions this (pathFoldersOf this)).
  { apply in_app_or in Hin. destruct Hin as [Hin | Hin].
    - destruct (truthy (_autoinstallerName this)); [|destruct Hin].
      destruct Hin as [Hin | []]. discriminate Hin.
    - destruct (preparationCompletes host this); [|destruct Hin].
      destruct Hin as [Hin | Hin].
      + injection Hin as <- <-. auto.
      + exfalso. destruct (after_command_cases host this) as [Hl | [code Hl]];
          cbv zeta in Hl; rewrite Hl in Hin.
        * destruct Hin.
        * destruct Hin as [Hin | []]. discriminate Hin. }
  destruct Hevent as [-> ->]. unfold commandLine.
  split; [|split; [|reflexivity]].
  - intros Hempty. apply customParameterValues_empty_iff in Hempty.
    rewrite Hempty. reflexivity.
  - intros Hvalues.
    destruct (0 <? length (customParameterValues this))%nat eqn:Hlen; [reflexivity|].
    apply customParameterValues_empty_iff in Hlen. contradiction.
Qed.

Lemma runAsync_command_string_witness :
  let command := "node common/scripts/deploy.js --verbose --target prod" in
  let options := lifecycleOptions deploy ["/repo/common/autoinstallers/my-task/node_modules/.bin"] in
  (customParameterValues deploy = [] -> command = _shellCommand deploy) /\
  (customParameterValues deploy <> [] ->
   command = _shellCommand deploy ++ " " ++ String.concat " " (customParameterValues deploy)) /\
  options = lifecycleOptions deploy (pathFoldersOf deploy).
Proof.
  apply (runAsync_command_string linux_with_git deploy startup).
  vm_compute. right. left. reflexivity.
Defined.

(** Joining loses the boundaries between the values: a value with a space in
    it and two separate values give the same command string. *)
Example commandLine_loses_boundaries :
  let one := {| actionName := "say"; rushConfiguration := sample_configuration;
                customParameters := [stringParameter "--message" (Some "hello world")];
                _shellCommand := "echo"; _autoinstallerName := "";
                _autoinstallerFullPath := "" |} in
  let two := {| actionName := "say"; rushConfiguration := sample_configuration;
                customParameters := [stringParameter "--message" (Some "hello");
                                     flagParameter "world" true];
                _shellCommand := "echo"; _autoinstallerName := "";
                _autoinstallerFullPath := "" |} in
  customParameterValues one = ["--message"; "hello world"] /\
  customParameterValues two = ["--message"; "hello"; "world"] /\
  commandLine one = commandLine two.
Proof. vm_compute. repeat split. Qed.

Example clean_runs_without_autoinstaller :
  appended startup (snd (runAsync linux_with_git clean startup))
  = [ExecuteLifecycleCommand "git clean -dfx" (lifecycleOptions clean [])].
Proof. vm_compute. reflexivity. Qed.

(** ** The scheduler: the pool bounds the executing operations *)

Section SchedulerFacts.

Import Scheduler.

Variable options : RunOptions.

Lemma uniqueKeys_NoDup (g : OperationGraph) :
  uniqueKeys g = true -> NoDup (map key g).
Proof.
  induction g as [|op rest IH]; simpl; intros Huniq.
  - constructor.
  - apply andb_prop in Huniq. destruct Huniq as [Hfresh Hrest].
    constructor; [|apply IH; exact Hrest].
    intros Hin. apply in_map_iff in Hin. destruct Hin as [other [Hkey Hother]].
    apply negb_true_iff in Hfresh.
    assert (Hex : existsb (fun o => key o =? key op) rest = true).
    { apply existsb_exists. exists other. split; [exact Hother|].
      rewrite Hkey. apply String.eqb_refl. }
    congruence.
Qed.

Lemma keys_setStatus (k : Key) (s : Status) (g : OperationGraph) :
  map key (setStatus k s g) = map key g.
Proof.
  unfold setStatus. rewrite map_map. apply map_ext.
  intros op. destruct (key op =? k); reflexivity.
Qed.

Lemma key_settleOperation (g : OperationGraph) (op : Operation) :
  key (settleOperation g op) = key op.
Proof.
  unfold settleOperation.
  destruct (becomesSkipped g op); [reflexivity|].
  destruct (becomesReady g op); reflexivity.
Qed.

(** The successor rule moves pending operations only. *)
Lemma executing_settleOperation (g : OperationGraph) (op : Operation) :
  status (settleOperation g op) = EXECUTING -> status op = EXECUTING.
Proof.
  unfold settleOperation.
  destruct (becomesSkipped g op); [discriminate|].
  destruct (becomesReady g op); [discriminate|]. trivial.
Qed.

Lemma length_setSlot (i : nat) (v : option Key) (pool : list (option Key)) :
  length (setSlot i v pool) = length pool.
Proof.
  revert i. induction pool as [|slot rest IH]; intros [|j]; simpl; auto.
Qed.

Lemma in_setSlot_new (i : nat) (v old : option Key) (pool : list (option Key)) :
  nth_error pool i = Some old -> In v (setSlot i v pool).
Proof.
  revert i. induction pool as [|slot rest IH]; intros [|j]; simpl;
    try discriminate; intros Hnth.
  - left. reflexivity.
  - right. apply IH. exact Hnth.
Qed.

Lemma in_setSlot_other (i : nat) (v old x : option Key) (pool : list (option Key)) :
  nth_error pool i = Some old -> x <> old -> In x pool -> In x (setSlot i v pool).
Proof.
  revert i. induction pool as [|slot rest IH]; intros [|j]; simpl;
    try discriminate; intros Hnth Hx Hin.
  - injection Hnth as ->. destruct Hin as [Heq | Hin]; [congruence | right; exact Hin].
  - destruct Hin as [Heq | Hin]; [left; exact Heq | right; apply IH; assumption].
Qed.

Lemma in_setStatus (k : Key) (s : Status) (g : OperationGraph) (op : Operation) :
  In op (setStatus k s g) ->
  (key op = k /\ status op = s) \/ (key op <> k /\ In op g).
Proof.
  unfold setStatus. intros Hin. apply in_map_iff in Hin.
  destruct Hin as [op0 [Heq Hin0]].
  destruct (String.eqb_spec (key op0) k) as [Hk | Hk]; subst op.
  - left. split; [exact Hk | reflexivity].
  - right. split; assumption.
Qed.

Lemma poolInvariant_settlePass (st : State) :
  poolInvariant options st -> poolInvariant options (settlePass st).
Proof.
  intros (Hlen & Hnodup & Hcov). unfold poolInvariant, settlePass; simpl.
  split; [exact Hlen|]. split.
  - rewrite map_map.
    erewrite map_ext; [exact Hnodup|].
    intros op. apply key_settleOperation.
  - intros op Hin Hexec. simpl in *.
    apply in_map_iff in Hin. destruct Hin as [op0 [<- Hin0]].
    rewrite key_settleOperation.
    apply Hcov; [exact Hin0|].
    apply executing_settleOperation with (g := operations st). exact Hexec.
Qed.

Lemma poolInvariant_settle (passes : nat) (st : State) :
  poolInvariant options st -> poolInvariant options (settle passes st).
Proof.
  revert st. induction passes as [|n IH]; intros st Hinv; simpl.
  - exact Hinv.
  - apply IH, poolInvariant_settlePass, Hinv.
Qed.

Lemma poolInvariant_start (g : OperationGraph) :
  uniqueKeys g = true -> poolInvariant options (start options g).
Proof.
  intros Huniq. unfold poolInvariant, start; simpl.
  split; [apply repeat_length|]. split.
  - rewrite map_map. simpl. apply uniqueKeys_NoDup. exact Huniq.
  - intros op Hin Hexec. simpl in *.
    apply in_map_iff in Hin. destruct Hin as [op0 [<- _]].
    simpl in Hexec. destruct (predecessors op0); discriminate Hexec.
Qed.

Lemma poolInvariant_step (st st' : State) (e : WorkerEvent) :
  poolInvariant options st -> step options st e = Some st' -> poolInvariant options st'.
Proof.
  intros (Hlen & Hnodup & Hcov) Hstep.
  destruct e as [worker cacheHit | worker succeeded]; simpl in Hstep.
  - destruct (nth_error (workers st) worker) as [[busy|]|] eqn:Hslot;
      try discriminate Hstep.
    destruct (readyQueue st) as [|k queue]; [discriminate Hstep|].
    destruct (dispatchingStopped options st); [discriminate Hstep|].
    destruct cacheHit.
    + destruct (cacheEnabled options); [|discriminate Hstep].
      injection Hstep as <-. apply poolInvariant_settle.
      unfold poolInvariant; simpl. split; [exact Hlen|]. split.
      * rewrite keys_setStatus. exact Hnodup.
      * intros op Hin Hexec. simpl in *.
        apply in_setStatus in Hin. destruct Hin as [[_ Hs] | [_ Hin]].
        -- congruence.
        -- apply Hcov; assumption.
    + injection Hstep as <-.
      unfold poolInvariant; simpl. split; [|split].
      * rewrite length_setSlot. exact Hlen.
      * rewrite keys_setStatus. exact Hnodup.
      * intros op Hin Hexec. simpl in *.
        apply in_setStatus in Hin. destruct Hin as [[Hk _] | [_ Hin]].
        -- rewrite Hk. apply in_setSlot_new with (old := None). exact Hslot.
        -- apply in_setSlot_other with (old := None);
             [exact Hslot | discriminate | apply Hcov; assumption].
  - destruct (nth_error (workers st) worker) as [[k|]|] eqn:Hslot;
      try discriminate Hstep.
    injection Hstep as <-. apply poolInvariant_settle.
    unfold poolInvariant; simpl. split; [|split].
    + rewrite length_setSlot. exact Hlen.
    + rewrite keys_setStatus. exact Hnodup.
    + intros op Hin Hexec. simpl in *.
      apply in_setStatus in Hin. destruct Hin as [[_ Hs] | [Hk Hin]].
      * destruct succeeded; congruence.
      * apply in_setSlot_other with (old := Some k);
          [exact Hslot | congruence | apply Hcov; assumption].
Qed.

Lemma poolInvariant_steps (es : list WorkerEvent) (st st' : State) :
  poolInvariant options st -> steps options st es = Some st' -> poolInvariant options st'.
Proof.
  revert st. induction es as [|e rest IH]; simpl; intros st Hinv Hrun.
  - injection Hrun as <-. exact Hinv.
  - destruct (step options st e) as [st1|] eqn:Hstep; [|discriminate Hrun].
    apply (IH st1); [|exact Hrun].
    apply (poolInvariant_step st st1 e); assumption.
Qed.

Lemma NoDup_executing_slots (g : OperationGraph) :
  NoDup (map key g) -> NoDup (map (fun op => Some (key op)) (executing g)).
Proof.
  unfold executing. induction g as [|op rest IH]; simpl; intros Hnodup.
  - constructor.
  - inversion Hnodup as [|? ? Hfresh Hrest]; subst.
    destruct (isExecuting (status op)); simpl; [|apply IH; exact Hrest].
    constructor; [|apply IH; exact Hrest].
    intros Hin. apply Hfresh.
    apply in_map_iff in Hin. destruct Hin as [other [Heq Hother]].
    injection Heq as Heq. apply filter_In in Hother.
    apply in_map_iff. exists other. split; [exact Heq | tauto].
Qed.

Lemma poolInvariant_bound (st : State) :
  poolInvariant options st -> length (executing (operations st)) <= maxConcurrency options.
Proof.
  intros (Hlen & Hnodup & Hcov).
  rewrite <- Hlen.
  rewrite <- (length_map (fun op => Some (key op)) (executing (operations st))).
  apply NoDup_incl_length.
  - apply NoDup_executing_slots. exact Hnodup.
  - intros slot Hin. apply in_map_iff in Hin.
    destruct Hin as [op [<- Hop]].
    unfold executing in Hop. apply filter_In in Hop. destruct Hop as [Hop Hexec].
    apply Hcov; [exact Hop|].
    destruct (status op); simpl in Hexec; try discriminate. reflexivity.
Qed.

End SchedulerFacts.

(** C8: for every operation graph (operations with unique keys), every
    concurrency limit greater than zero and every sequence of worker actions,
    the number of operations in the EXECUTING state in the state reached is
    at most [maxConcurrency].  Every state during a run is the state reached
    by a prefix of the actions, so the bound holds at every point. *)
Theorem executing_within_maxConcurrency
  (options : Scheduler.RunOptions) (graph : Scheduler.OperationGraph)
  (actions : list Scheduler.WorkerEvent) (st : Scheduler.State) :
  Scheduler.uniqueKeys graph = true ->
  0 < Scheduler.maxConcurrency options ->
  Scheduler.run options graph actions = Some st ->
  length (Scheduler.executing (Scheduler.operations st))
  <= Scheduler.maxConcurrency options.
Proof.
  intros Huniq _ Hrun. apply poolInvariant_bound.
  apply (poolInvariant_steps options actions (Scheduler.start options graph) st).
  - apply poolInvariant_start. exact Huniq.
  - exact Hrun.
Qed.

Lemma executing_within_maxConcurrency_witness :
  exists st,
    Scheduler.run Scheduler.two_workers Scheduler.workspace
      [Scheduler.Dispatch 0 false; Scheduler.Dispatch 1 false] = Some st /\
    length (Scheduler.executing (Scheduler.operations st)) = 2 /\
    length (Scheduler.executing (Scheduler.operations st))
    <= Scheduler.maxConcurrency Scheduler.two_workers.
Proof.
  eexists. split; [vm_compute; reflexivity|]. split; [reflexivity|].
  apply (executing_within_maxConcurrency Scheduler.two_workers Scheduler.workspace
           [Scheduler.Dispatch 0 false; Scheduler.Dispatch 1 false]).
  - reflexivity.
  - simpl. lia.
  - vm_compute. reflexivity.
Defined.

(** With both workers busy a third dispatch is not possible, whatever slot
    it names. *)
Example no_third_dispatch (worker : nat) (cacheHit : bool) :
  Scheduler.run Scheduler.two_workers Scheduler.workspace
    [Scheduler.Dispatch 0 false; Scheduler.Dispatch 1 false;
     Scheduler.Dispatch worker cacheHit] = None.
Proof.
  destruct worker as [|[|[|n]]]; destruct cacheHit; reflexivity.
Qed.

(** ** What the calls leave behind *)

Lemma logged_refl (w : World) : logged w w [].
Proof. unfold logged. rewrite app_nil_r. auto. Qed.

Lemma logged_record (w : World) (e : Event) : logged w (record e w) [e].
Proof. unfold logged, record; simpl. auto. Qed.

Lemma logged_trans (w1 w2 w3 : World) (l1 l2 : list Event) :
  logged w1 w2 l1 -> logged w2 w3 l2 -> logged w1 w3 (l1 ++ l2).
Proof.
  intros (Hh1 & Hp1 & Hx1 & He1) (Hh2 & Hp2 & Hx2 & He2). unfold logged.
  rewrite Hh2, Hp2, Hx2, He2, He1, app_assoc. auto.
Qed.

Lemma spawnCount_app (w w' : World) (l : list Event) :
  events w' = (events w ++ l)%list ->
  spawnCount w' = spawnCount w + length (filter isSpawn l).
Proof.
  unfold spawnCount. intros ->. rewrite filter_app, length_app. reflexivity.
Qed.

(** The world after [getGitPath], by the path taken. *)
Lemma getGitPath_world (host : Host) (w : World) :
  (exists b, _hasGit w = Some b /\ getGitPath host w = (Normal (_gitPath w), w))
  \/
  (_hasGit w = None /\
   getGitPath host w =
     (Normal (Some (stdout (whichGit host w))),
      set_hasGit (Some (truthyBuffer (stdout (whichGit host w))))
        (set_gitPath (Some (stdout (whichGit host w)))
           (record (whichGitEvent host) w))))
  \/
  (_hasGit w = None /\
   getGitPath host w = (Normal (_gitPath w), record (whichGitEvent host) w)).
Proof.
  destruct (_hasGit w) as [b|] eqn:Hhas.
  - left. exists b. split; [reflexivity|]. apply (getGitPath_cached host w b Hhas).
  - right. destruct (status_is (status (whichGit host w)) 0) eqn:Hst.
    + left. split; [reflexivity|]. apply getGitPath_probe_ok; assumption.
    + right. split; [reflexivity|]. apply getGitPath_probe_failed; assumption.
Qed.

Lemma detectIfGitIsSupported_world (host : Host) (w w1 : World) (p : option Buffer) :
  getGitPath host w = (Normal p, w1) ->
  snd (detectIfGitIsSupported host w) = if truthyBuffer_opt p then record GitInfo w1 else w1.
Proof.
  intros Hget. rewrite (detectIfGitIsSupported_eq host w w1 p Hget).
  destruct (truthyBuffer_opt p); [|reflexivity].
  destruct (gitInfo host); reflexivity.
Qed.

Lemma tryGetGitEmail_world (host : Host) (w w1 : World) (p : option Buffer) :
  getGitPath host w = (Normal p, w1) ->
  snd (tryGetGitEmail host w) =
    if truthyBuffer_opt p
    then record (ExecuteCommandAndCaptureOutput "git" ["config"; "user.email"] ".") w1
    else w1.
Proof.
  intros Hget. rewrite (tryGetGitEmail_eq host w w1 p Hget).
  destruct (truthyBuffer_opt p); reflexivity.
Qed.

(** [getGitEmail] adds to what [tryGetGitEmail] left: nothing when it
    returns, one diagnostic when it throws. *)
Lemma getGitEmail_world (host : Host) (configuration : RushConfiguration) (w : World) :
  (exists email,
     fst (getGitEmail host configuration w) = Normal email /\
     snd (getGitEmail host configuration w) = snd (tryGetGitEmail host w))
  \/
  (exists text,
     fst (getGitEmail host configuration w) = Abrupt AlreadyReportedError /\
     snd (getGitEmail host configuration w)
     = record (ConsoleLog text) (snd (tryGetGitEmail host w))).
Proof.
  destruct (getGitPath_returns host w) as (p & w1 & Hget & _).
  unfold getGitEmail, bind.
  rewrite (tryGetGitEmail_eq host w w1 p Hget).
  destruct (truthyBuffer_opt p).
  - destruct (gitConfigUserEmail host) as [output|e]; simpl.
    + destruct (truthy (trim output)); simpl.
      * left. eexists. split; reflexivity.
      * right. eexists. split; reflexivity.
    + right. eexists. split; reflexivity.
  - simpl. right. eexists. split; reflexivity.
Qed.

(** The events of [runAsync], as an equation on the whole list. *)
Lemma runAsync_logged_but_exitCode
  (host : Host) (this : GlobalScriptAction) (w : World) :
  _hasGit (snd (runAsync host this w)) = _hasGit w /\
  _gitPath (snd (runAsync host this w)) = _gitPath w /\
  events (snd (runAsync host this w))
  = (events w ++ appended w (snd (runAsync host this w)))%list.
Proof.
  rewrite runAsync_eq. cbv zeta.
  assert (Hkeep : forall w0 w', (exists l, events w' = (events w0 ++ l)%list) ->
                                events w' = (events w0 ++ appended w0 w')%list).
  { intros w0 w' [l Hl]. rewrite (appended_app w0 w' l Hl). exact Hl. }
  destruct (truthy (_autoinstallerName this)).
  - destruct (prepareAsync host _ _).
    + destruct (lifecycleExit host this) as [code|e]; [destruct (0 <? code)%Z|];
        (split; [reflexivity|]); (split; [reflexivity|]);
        apply Hkeep; eexists; simpl; rewrite <- ?app_assoc; reflexivity.
    + split; [reflexivity|]. split; [reflexivity|].
      apply Hkeep. eexists. reflexivity.
  - destruct (lifecycleExit host this) as [code|e]; [destruct (0 <? code)%Z|];
      (split; [reflexivity|]); (split; [reflexivity|]);
      apply Hkeep; eexists; simpl; rewrite <- ?app_assoc; reflexivity.
Qed.

(** ** Invariants over sequences of calls *)

Lemma spawnCount_record (w : World) (e : Event) :
  isSpawn e = false -> spawnCount (record e w) = spawnCount w.
Proof.
  intros He. rewrite (spawnCount_app w (record e w) [e] eq_refl).
  simpl. rewrite He. simpl. lia.
Qed.

Lemma runAsync_spawns_nothing (host : Host) (this : GlobalScriptAction) (w : World) :
  spawnCount (snd (runAsync host this w)) = spawnCount w.
Proof.
  destruct (runAsync_logged_but_exitCode host this w) as (_ & _ & Hev).
  rewrite (spawnCount_app _ _ _ Hev), runAsync_appended.
  destruct (truthy (_autoinstallerName this));
    destruct (preparationCompletes host this); simpl;
    try (destruct (lifecycleExit host this) as [code|e];
         [destruct (0 <? code)%Z|]; simpl); lia.
Qed.


(** The statics a call leaves are those it found or those [getGitPath]
    makes of them; process.exitCode is assigned by [runAsync] alone. *)
Lemma worldAfter_statics (host : Host) (c : Call) (w : World) :
  let w' := worldAfter host c w in
  ((_hasGit w' = _hasGit w /\ _gitPath w' = _gitPath w) \/
   (_hasGit w' = _hasGit (snd (getGitPath host w)) /\
    _gitPath w' = _gitPath (snd (getGitPath host w)))) /\
  (isRunAsync c = false -> exitCode w' = exitCode w).
Proof.
  cbv zeta.
  destruct (getGitPath_returns host w) as (p & w1 & Hget & _).
  assert (Hexit : exitCode w1 = exitCode w).
  { destruct (getGitPath_world host w) as [[b [_ Hrun]] | [[_ Hrun] | [_ Hrun]]];
      rewrite Hrun in Hget; injection Hget as _ <-; reflexivity. }
  destruct c as [| | | configuration | options | this]; simpl; rewrite ?Hget; simpl.
  - split; [right; split; reflexivity | intros _; exact Hexit].
  - rewrite (detectIfGitIsSupported_world host w w1 p Hget).
    destruct (truthyBuffer_opt p); (split; [right; split; reflexivity | intros _; exact Hexit]).
  - rewrite (tryGetGitEmail_world host w w1 p Hget).
    destruct (truthyBuffer_opt p); (split; [right; split; reflexivity | intros _; exact Hexit]).
  - destruct (getGitEmail_world host configuration w)
      as [[email [_ Hw]] | [text [_ Hw]]]; rewrite Hw;
      rewrite (tryGetGitEmail_world host w w1 p Hget);
      destruct (truthyBuffer_opt p);
      (split; [right; split; reflexivity | intros _; exact Hexit]).
  - rewrite new_GlobalScriptAction_pure. split; [left; split; reflexivity | reflexivity].
  - destruct (runAsync_logged_but_exitCode host this w) as (Hh & Hp & _).
    split; [left; split; assumption | discriminate].
Qed.



Lemma worldAfter_cached (host : Host) (c : Call) (w : World) (b : bool) :
  _hasGit w = Some b ->
  _hasGit (worldAfter host c w) = Some b /\
  _gitPath (worldAfter host c w) = _gitPath w /\
  spawnCount (worldAfter host c w) = spawnCount w.
Proof.
  intros Hhas.
  pose proof (getGitPath_cached host w b Hhas) as Hget.
  destruct c as [| | | configuration | options | this]; simpl.
  - rewrite Hget. simpl. auto.
  - rewrite (detectIfGitIsSupported_world host w w _ Hget).
    destruct (truthyBuffer_opt (_gitPath w)); [|auto].
    rewrite spawnCount_record by reflexivity. simpl. auto.
  - rewrite (tryGetGitEmail_world host w w _ Hget).
    destruct (truthyBuffer_opt (_gitPath w)); [|auto].
    rewrite spawnCount_record by reflexivity. simpl. auto.
  - destruct (getGitEmail_world host configuration w)
      as [[email [_ Hw]] | [text [_ Hw]]]; rewrite Hw;
      rewrite (tryGetGitEmail_world host w w _ Hget);
      destruct (truthyBuffer_opt (_gitPath w));
      rewrite ?spawnCount_record by reflexivity; simpl; auto.
  - rewrite new_GlobalScriptAction_pure. auto.
  - destruct (runAsync_logged_but_exitCode host this w) as (Hh & Hp & _).
    rewrite Hh, Hp, runAsync_spawns_nothing. auto.
Qed.

(** X2: once [_hasGit] is set, by a probe that exited with status 0, no later
    call probes the PATH again or changes the cached path, whatever calls
    follow: the flag, the path and the number of spawned probes stay as they
    are. *)
Theorem cached_git_path_is_final
  (host : Host) (calls : list Call) (w : World) (b : bool) :
  _hasGit w = Some b ->
  _hasGit (worldAfterAll host calls w) = Some b /\
  _gitPath (worldAfterAll host calls w) = _gitPath w /\
  spawnCount (worldAfterAll host calls w) = spawnCount w.
Proof.
  unfold worldAfterAll. revert w.
  induction calls as [|c rest IH]; intros w Hhas; simpl.
  - auto.
  - destruct (worldAfter_cached host c w b Hhas) as (Hh & Hp & Hs).
    destruct (IH (worldAfter host c w) Hh) as (Hh' & Hp' & Hs').
    rewrite Hh', Hp', Hs', Hp, Hs. auto.
Qed.

Lemma cached_git_path_is_final_witness :
  let w := snd (getGitPath linux_with_git startup) in
  let calls := [Call_getGitPath; Call_getGitEmail sample_configuration;
                Call_detectIfGitIsSupported; Call_runAsync deploy;
                Call_tryGetGitEmail] in
  _hasGit (worldAfterAll linux_with_git calls w) = Some true /\
  _gitPath (worldAfterAll linux_with_git calls w) = _gitPath w /\
  spawnCount (worldAfterAll linux_with_git calls w) = spawnCount w.
Proof.
  apply (cached_git_path_is_final linux_with_git). vm_compute. reflexivity.
Defined.

(** X3: process.exitCode is assigned by [runAsync] and by nothing else: a
    sequence of calls with no [runAsync] in it leaves the exit code it
    found. *)
Theorem exitCode_assigned_by_runAsync_only
  (host : Host) (calls : list Call) (w : World) :
  existsb isRunAsync calls = false ->
  exitCode (worldAfterAll host calls w) = exitCode w.
Proof.
  unfold worldAfterAll. revert w.
  induction calls as [|c rest IH]; intros w Hnone; simpl.
  - reflexivity.
  - simpl in Hnone. apply orb_false_iff in Hnone. destruct Hnone as [Hc Hrest].
    rewrite (IH _ Hrest).
    destruct (worldAfter_statics host c w) as [_ Hexit]. apply Hexit. exact Hc.
Qed.

Lemma exitCode_assigned_by_runAsync_only_witness :
  let w := snd (runAsync (script_exits_with 3) deploy startup) in
  let calls := [Call_getGitEmail sample_configuration;
                Call_new_GlobalScriptAction deploy_options;
                Call_detectIfGitIsSupported] in
  exitCode w = Some 3%Z /\
  exitCode (worldAfterAll linux_without_git calls w) = exitCode w.
Proof.
  split; [vm_compute; reflexivity|].
  apply (exitCode_assigned_by_runAsync_only linux_without_git). reflexivity.
Defined.

(** ** The address that getGitEmail returns *)

Lemma trimStart_firstChar (s : string) (c : ascii) :
  firstChar (trimStart s) = Some c -> isWhiteSpace c = false.
Proof.
  induction s as [|a rest IH]; simpl; [discriminate|].
  destruct (isWhiteSpace a) eqn:Ha; [exact IH|].
  simpl. intros Hc. injection Hc as <-. exact Ha.
Qed.

Lemma trimEnd_firstChar (s : string) :
  trimEnd s = "" \/ firstChar (trimEnd s) = firstChar s.
Proof.
  destruct s as [|a rest]; simpl; [left; reflexivity|].
  destruct (trimEnd rest); [|right; reflexivity].
  destruct (isWhiteSpace a); [left | right]; reflexivity.
Qed.

Lemma trimEnd_lastChar (s : string) (c : ascii) :
  lastChar (trimEnd s) = Some c -> isWhiteSpace c = false.
Proof.
  induction s as [|a rest IH]; simpl; [discriminate|].
  destruct (trimEnd rest) as [|b kept] eqn:Hrest.
  - destruct (isWhiteSpace a) eqn:Ha; simpl; [discriminate|].
    intros Hc. injection Hc as <-. exact Ha.
  - simpl. exact IH.
Qed.

(** What [getGitEmail] returns is the trimmed output of the command, and
    that is not empty. *)
Lemma getGitEmail_returned
  (host : Host) (configuration : RushConfiguration) (w : World) (email : string) :
  fst (getGitEmail host configuration w) = Normal email ->
  exists output,
    gitConfigUserEmail host = Normal output /\ email = trim output /\ email <> "".
Proof.
  destruct (getGitPath_returns host w) as (p & w1 & Hget & _).
  unfold getGitEmail, bind.
  rewrite (tryGetGitEmail_eq host w w1 p Hget).
  destruct (truthyBuffer_opt p); [|simpl; discriminate].
  destruct (gitConfigUserEmail host) as [output|e]; simpl; [|discriminate].
  destruct (truthy (trim output)) eqn:Htrim; simpl; [|discriminate].
  intros Hret. injection Hret as <-. exists output.
  split; [reflexivity|]. split; [reflexivity|].
  apply truthy_true_iff. exact Htrim.
Qed.

Lemma lastChar_nonempty (s : string) : s <> "" -> lastChar s <> None.
Proof.
  induction s as [|a rest IH]; [congruence|].
  intros _. simpl. destruct rest as [|b rest']; [discriminate|].
  apply IH. discriminate.
Qed.

(** X4: an address returned by [getGitEmail] is never empty and has no white
    space at its start or at its end. *)
Theorem getGitEmail_address_is_trimmed
  (host : Host) (configuration : RushConfiguration) (w : World) (email : string) :
  fst (getGitEmail host configuration w) = Normal email ->
  email <> "" /\
  (exists c, firstChar email = Some c /\ isWhiteSpace c = false) /\
  (exists c, lastChar email = Some c /\ isWhiteSpace c = false).
Proof.
  intros Hret.
  destruct (getGitEmail_returned host configuration w email Hret)
    as (output & _ & Hemail & Hne).
  split; [exact Hne|]. subst email. unfold trim in *.
  split.
  - destruct (trimEnd_firstChar (trimStart output)) as [Hempty | Hfirst];
      [contradiction|].
    destruct (firstChar (trimEnd (trimStart output))) as [c|] eqn:Hc.
    + exists c. split; [reflexivity|].
      apply (trimStart_firstChar output). congruence.
    + destruct (trimEnd (trimStart output)); [contradiction | discriminate].
  - destruct (lastChar (trimEnd (trimStart output))) as [c|] eqn:Hc.
    + exists c. split; [reflexivity|]. apply (trimEnd_lastChar _ _ Hc).
    + exfalso. apply (lastChar_nonempty _ Hne). exact Hc.
Qed.

Lemma getGitEmail_address_is_trimmed_witness :
  "bob@example.com" <> "" /\
  (exists c, firstChar "bob@example.com" = Some c /\ isWhiteSpace c = false) /\
  (exists c, lastChar "bob@example.com" = Some c /\ isWhiteSpace c = false).
Proof.
  apply (getGitEmail_address_is_trimmed linux_with_git sample_configuration startup).
  vm_compute. reflexivity.
Defined.

(** ** The events of the Git calls *)

(** X5: beyond what [getGitPath] does, [getGitEmail] runs
    [git config user.email] once when [getGitPath] returns a value, whatever
    that Buffer holds, and not at all when it returns undefined; it then
    prints one diagnostic when it throws and nothing when it returns; it
    changes neither the statics nor process.exitCode. *)
Theorem getGitEmail_events
  (host : Host) (configuration : RushConfiguration) (w : World) :
  exists (p : option Buffer) (w1 : World) (diagnostic : list Event),
    getGitPath host w = (Normal p, w1) /\
    logged w1 (snd (getGitEmail host configuration w))
      (match p with
       | Some _ => [ExecuteCommandAndCaptureOutput "git" ["config"; "user.email"] "."]
       | None => []
       end ++ diagnostic) /\
    ((exists email, fst (getGitEmail host configuration w) = Normal email)
     /\ diagnostic = []
     \/
     fst (getGitEmail host configuration w) = Abrupt AlreadyReportedError
     /\ exists text, diagnostic = [ConsoleLog text]).
Proof.
  destruct (getGitPath_returns host w) as (p & w1 & Hget & _).
  exists p, w1.
  assert (Htry : logged w1 (snd (tryGetGitEmail host w))
            match p with
            | Some _ => [ExecuteCommandAndCaptureOutput "git" ["config"; "user.email"] "."]
            | None => []
            end).
  { rewrite (tryGetGitEmail_world host w w1 p Hget).
    destruct p; [apply logged_record | apply logged_refl]. }
  destruct (getGitEmail_world host configuration w)
    as [[email [Hfst Hw]] | [text [Hfst Hw]]]; rewrite Hw.
  - exists []. split; [exact Hget|]. split.
    + rewrite app_nil_r. exact Htry.
    + left. split; [exists email; exact Hfst | reflexivity].
  - exists [ConsoleLog text]. split; [exact Hget|]. split.
    + apply (logged_trans _ _ _ _ _ Htry). apply logged_record.
    + right. split; [exact Hfst | exists text; reflexivity].
Qed.

(** X6: beyond what [getGitPath] does, [detectIfGitIsSupported] reads the
    repository info once when [getGitPath] returns a value, whatever that
    Buffer holds, and not at all when it returns undefined; it prints
    nothing and changes neither the statics nor process.exitCode. *)
Theorem detectIfGitIsSupported_events (host : Host) (w : World) :
  exists (p : option Buffer) (w1 : World),
    getGitPath host w = (Normal p, w1) /\
    logged w1 (snd (detectIfGitIsSupported host w))
      match p with
      | Some _ => [GitInfo]
      | None => []
      end.
Proof.
  destruct (getGitPath_returns host w) as (p & w1 & Hget & _).
  exists p, w1. split; [exact Hget|].
  rewrite (detectIfGitIsSupported_world host w w1 p Hget).
  destruct p; [apply logged_record | apply logged_refl].
Qed.

(** ** More on GlobalScriptAction *)

Lemma append_assoc (a b c : string) : (a ++ b) ++ c = a ++ (b ++ c).
Proof.
  induction a as [|x a IH]; simpl; [reflexivity|]. rewrite IH. reflexivity.
Qed.

Lemma prefix_append (a b : string) : String.prefix a (a ++ b) = true.
Proof.
  induction a as [|x a IH]; simpl; [destruct b; reflexivity|].
  destruct (ascii_dec x x) as [_|Hx]; [exact IH | contradiction].
Qed.

Lemma prefix_refl (a : string) : String.prefix a a = true.
Proof.
  induction a as [|x a IH]; simpl; [reflexivity|].
  destruct (ascii_dec x x) as [_|Hx]; [exact IH | contradiction].
Qed.

(** Joining a joined pair with more segments is joining all of them. *)
Lemma path_join_nested (a b c : string) (rest : list string) :
  path_join (path_join [a; b] :: c :: rest) = path_join (a :: b :: c :: rest).
Proof.
  unfold path_join. simpl. rewrite append_assoc. reflexivity.
Qed.

Lemma path_join_pair_nonempty (a b : string) : path_join [a; b] <> "".
Proof.
  unfold path_join. simpl. destruct a; simpl; discriminate.
Qed.

(** X7: an action built by the constructor with the autoinstaller [n], run
    on a host where the preparation completes, prepares [n] and then executes
    its command with exactly one additional PATH folder, namely
    commonAutoinstallersFolder/n/node_modules/.bin of the configuration it was
    built with. *)
Theorem constructed_action_runs_with_autoinstaller_bin
  (host host' : Host) (options : IGlobalScriptActionOptions) (w w' : World)
  (this : GlobalScriptAction) (n : string) :
  fst (new_GlobalScriptAction host options w) = Normal this ->
  autoinstallerName options = Some n ->
  n <> "" ->
  prepareAsync host' n (opt_rushConfiguration options) = Normal tt ->
  exists command later,
    appended w' (snd (runAsync host' this w'))
    = PrepareAsync n true
      :: ExecuteLifecycleCommand command
           (lifecycleOptions this
              [path_join [commonAutoinstallersFolder (opt_rushConfiguration options);
                          n; "node_modules"; ".bin"]])
      :: later.
Proof.
  intros Hnew Hname Hne Hprep.
  assert (Hor : or_else (autoinstallerName options) "" = n).
  { rewrite Hname. simpl. apply truthy_true_iff in Hne. rewrite Hne. reflexivity. }
  assert (Htruthy : truthy n = true) by (apply truthy_true_iff; exact Hne).
  assert (Hfields : rushConfiguration this = opt_rushConfiguration options /\
                    _autoinstallerName this = n /\
                    _autoinstallerFullPath this = autoinstallerFolder options).
  { rewrite new_GlobalScriptAction_eq in Hnew by (rewrite Hor; exact Htruthy).
    rewrite Hor in Hnew.
    destruct (BaseScriptAction_constructor host options); [discriminate|].
    destruct (validateName host n); [|discriminate].
    destruct (negb (FileSystem_exists host (autoinstallerFolder options)));
      [discriminate|].
    destruct (negb (FileSystem_exists host (autoinstallerPackageJson options)));
      [discriminate|].
    destruct (JsonFile_load host _) as [pkg|]; [|discriminate].
    destruct (name pkg =? n); [|discriminate].
    injection Hnew as <-. simpl. auto. }
  destruct Hfields as (Hrc & Hn & Hfull).
  rewrite runAsync_appended. unfold preparationCompletes, pathFoldersOf.
  rewrite Hn, Hrc, Htruthy, Hprep, Hfull. simpl app.
  unfold autoinstallerFolder. rewrite Hor, path_join_nested.
  eexists _, _. reflexivity.
Qed.

Lemma constructed_action_runs_with_autoinstaller_bin_witness :
  exists command later,
    appended startup (snd (runAsync linux_with_git deploy_as_constructed startup))
    = PrepareAsync "my-task" true
      :: ExecuteLifecycleCommand command
           (lifecycleOptions deploy_as_constructed
              [path_join [commonAutoinstallersFolder (opt_rushConfiguration deploy_options);
                          "my-task"; "node_modules"; ".bin"]])
      :: later.
Proof.
  apply (constructed_action_runs_with_autoinstaller_bin
           linux_with_git linux_with_git deploy_options startup startup
           deploy_as_constructed "my-task").
  - vm_compute. reflexivity.
  - reflexivity.
  - discriminate.
  - reflexivity.
Defined.

(** X8: when [autoinstallerName] is undefined or empty the constructor
    consults neither the name validation nor the file system: on every host
    whose base constructor returns it returns the same action, with an empty
    name and an empty full path, and no run of that action, whatever
    parameters it has been given since, prepares an autoinstaller. *)
Theorem constructor_without_autoinstaller
  (options : IGlobalScriptActionOptions) (w : World) :
  autoinstallerName options = None \/ autoinstallerName options = Some "" ->
  exists this,
    (forall host,
       BaseScriptAction_constructor host options = None ->
       new_GlobalScriptAction host options w = (Normal this, w)) /\
    _autoinstallerName this = "" /\
    _autoinstallerFullPath this = "" /\
    _shellCommand this = shellCommand options /\
    forall parameters runHost w' autoinstaller completed,
      ~ In (PrepareAsync autoinstaller completed)
           (appended w' (snd (runAsync runHost (withCustomParameters this parameters) w'))).
Proof.
  intros Hname.
  assert (Hor : or_else (autoinstallerName options) "" = "")
    by (destruct Hname as [-> | ->]; reflexivity).
  assert (Hnew : forall host,
            BaseScriptAction_constructor host options = None ->
            new_GlobalScriptAction host options w
            = (Normal {| actionName := opt_actionName options;
                         rushConfiguration := opt_rushConfiguration options;
                         customParameters := [];
                         _shellCommand := shellCommand options;
                         _autoinstallerName := "";
                         _autoinstallerFullPath := "" |}, w)).
  { intros host Hsuper. unfold new_GlobalScriptAction, super, bind, ret.
    rewrite Hor, Hsuper. reflexivity. }
  eexists. split; [exact Hnew|].
  split; [reflexivity|]. split; [reflexivity|]. split; [reflexivity|].
  intros parameters runHost w' autoinstaller completed.
  rewrite runAsync_appended. unfold preparationCompletes. simpl.
  intros [Hin | Hin]; [discriminate Hin|].
  destruct (lifecycleExit runHost _) as [code|e]; [destruct (0 <? code)%Z|];
    simpl in Hin; repeat (destruct Hin as [Hin | Hin]; [discriminate Hin|]);
    exact Hin.
Qed.

Lemma constructor_without_autoinstaller_witness :
  let options := {| opt_actionName := "clean";
                    opt_rushConfiguration := sample_configuration;
                    shellCommand := "git clean -dfx";
                    autoinstallerName := None |} in
  exists this,
    (forall host,
       BaseScriptAction_constructor host options = None ->
       new_GlobalScriptAction host options startup = (Normal this, startup)) /\
    _autoinstallerName this = "" /\
    _autoinstallerFullPath this = "" /\
    _shellCommand this = "git clean -dfx" /\
    forall parameters runHost w' autoinstaller completed,
      ~ In (PrepareAsync autoinstaller completed)
           (appended w' (snd (runAsync runHost (withCustomParameters this parameters) w'))).
Proof.
  apply (constructor_without_autoinstaller
           {| opt_actionName := "clean";
              opt_rushConfiguration := sample_configuration;
              shellCommand := "git clean -dfx";
              autoinstallerName := None |} startup).
  left. reflexivity.
Defined.

(** X9: the constructor throws its errors in the order of the source and
    passes on those of its helpers unchanged.  An error of the base
    constructor is thrown before anything else is looked at.  When the base
    constructor returns and the autoinstaller name is not empty, an error
    thrown by [Autoinstaller.validateName] is the constructor's error
    whatever the folders hold, and an error thrown by [JsonFile.load] for an
    existing package.json is the constructor's error. *)
Theorem constructor_passes_on_helper_errors
  (host : Host) (options : IGlobalScriptActionOptions) (w : World)
  (n : string) (e : JsError) :
  autoinstallerName options = Some n ->
  n <> "" ->
  (forall text,
     BaseScriptAction_constructor host options = Some text ->
     new_GlobalScriptAction host options w = (Abrupt (Error text), w)) /\
  (BaseScriptAction_constructor host options = None ->
   validateName host n = Abrupt e ->
   new_GlobalScriptAction host options w = (Abrupt e, w)) /\
  (BaseScriptAction_constructor host options = None ->
   validateName host n = Normal tt ->
   FileSystem_exists host (autoinstallerFolder options) = true ->
   FileSystem_exists host (autoinstallerPackageJson options) = true ->
   JsonFile_load host (autoinstallerPackageJson options) = Abrupt e ->
   new_GlobalScriptAction host options w = (Abrupt e, w)).
Proof.
  intros Hname Hne.
  assert (Hor : or_else (autoinstallerName options) "" = n).
  { rewrite Hname. simpl. apply truthy_true_iff in Hne. rewrite Hne. reflexivity. }
  assert (Htruthy : truthy (or_else (autoinstallerName options) "") = true).
  { rewrite Hor. apply truthy_true_iff. exact Hne. }
  pose proof (new_GlobalScriptAction_eq host options w Htruthy) as Hfst.
  pose proof (new_GlobalScriptAction_pure host options w) as Hsnd.
  rewrite Hor in Hfst.
  destruct (new_GlobalScriptAction host options w) as [outcome w1].
  simpl in Hfst, Hsnd. subst w1. split; [|split].
  - intros text Hsuper. rewrite Hsuper in Hfst. rewrite Hfst. reflexivity.
  - intros Hsuper Hvalid. rewrite Hsuper, Hvalid in Hfst. rewrite Hfst. reflexivity.
  - intros Hsuper Hvalid Hfolder Hpkg Hload.
    rewrite Hsuper, Hvalid, Hfolder, Hpkg, Hload in Hfst. simpl in Hfst.
    rewrite Hfst. reflexivity.
Qed.

Lemma constructor_passes_on_helper_errors_witness :
  let options := {| opt_actionName := "deploy";
                    opt_rushConfiguration := sample_configuration;
                    shellCommand := "node deploy.js";
                    autoinstallerName := Some "My Task" |} in
  let host := {| platform := platform linux_with_git;
                 EOL := EOL linux_with_git;
                 colors_enabled := colors_enabled linux_with_git;
                 BaseScriptAction_constructor := fun _ => None;
                 spawnSync := spawnSync linux_with_git;
                 gitInfo := gitInfo linux_with_git;
                 executeCommandAndCaptureOutput :=
                   executeCommandAndCaptureOutput linux_with_git;
                 getEmailExampleLines := getEmailExampleLines linux_with_git;
                 FileSystem_exists := fun _ => false;
                 JsonFile_load := JsonFile_load linux_with_git;
                 validateName := fun _ => Abrupt (Error "not a valid NPM package name");
                 prepareAsync := prepareAsync linux_with_git;
                 executeLifecycleCommand := executeLifecycleCommand linux_with_git |} in
  new_GlobalScriptAction host options startup
  = (Abrupt (Error "not a valid NPM package name"), startup).
Proof.
  cbv zeta.
  refine (proj1 (proj2 (constructor_passes_on_helper_errors _ _ startup "My Task"
                          (Error "not a valid NPM package name") _ _)) _ _).
  - reflexivity.
  - discriminate.
  - reflexivity.
  - reflexivity.
Defined.

(** X10: an action returned by the constructor holds the options' shell
    command, holds as its autoinstaller name the options' name, or the empty
    string when that is undefined, and its autoinstaller full path is empty
    exactly when its autoinstaller name is empty. *)
Theorem constructed_action_fields
  (host : Host) (options : IGlobalScriptActionOptions) (w : World)
  (this : GlobalScriptAction) :
  fst (new_GlobalScriptAction host options w) = Normal this ->
  _shellCommand this = shellCommand options /\
  _autoinstallerName this = or_else (autoinstallerName options) "" /\
  (_autoinstallerFullPath this = "" <-> _autoinstallerName this = "").
Proof.
  destruct (truthy (or_else (autoinstallerName options) "")) eqn:Htruthy.
  - rewrite (new_GlobalScriptAction_eq host options w Htruthy).
    destruct (BaseScriptAction_constructor host options); [discriminate|].
    destruct (validateName host _); [|discriminate].
    destruct (negb (FileSystem_exists host (autoinstallerFolder options)));
      [discriminate|].
    destruct (negb (FileSystem_exists host (autoinstallerPackageJson options)));
      [discriminate|].
    destruct (JsonFile_load host _) as [pkg|]; [|discriminate].
    destruct (name pkg =? _); [|discriminate].
    intros Hthis. injection Hthis as <-. simpl.
    repeat (split; [reflexivity|]).
    apply truthy_true_iff in Htruthy. split.
    + intros Hempty. exfalso. revert Hempty. apply path_join_pair_nonempty.
    + intros Hempty. contradiction.
  - unfold new_GlobalScriptAction, super, bind, throw, ret. rewrite Htruthy.
    destruct (BaseScriptAction_constructor host options); [discriminate|]. simpl.
    intros Hthis. injection Hthis as <-. simpl.
    apply truthy_false_iff in Htruthy.
    split; [reflexivity|]. split; [reflexivity|].
    split; intros _; [exact Htruthy | reflexivity].
Qed.

Lemma constructed_action_fields_witness :
  _shellCommand deploy_as_constructed = shellCommand deploy_options /\
  _autoinstallerName deploy_as_constructed = or_else (autoinstallerName deploy_options) "" /\
  (_autoinstallerFullPath deploy_as_constructed = ""
   <-> _autoinstallerName deploy_as_constructed = "").
Proof.
  apply (constructed_action_fields linux_with_git deploy_options startup
           deploy_as_constructed).
  vm_compute. reflexivity.
Defined.

(** X11: when the preparation of the autoinstaller throws, [runAsync] throws
    that same error, the lifecycle command is not executed, nothing is
    printed and process.exitCode keeps its value. *)
Theorem runAsync_failed_preparation
  (host : Host) (this : GlobalScriptAction) (w : World) (e : JsError) :
  _autoinstallerName this <> "" ->
  prepareAsync host (_autoinstallerName this) (rushConfiguration this) = Abrupt e ->
  fst (runAsync host this w) = Abrupt e /\
  exitCode (snd (runAsync host this w)) = exitCode w /\
  appended w (snd (runAsync host this w)) = [PrepareAsync (_autoinstallerName this) false].
Proof.
  intros Hname Hprep. apply truthy_true_iff in Hname.
  rewrite runAsync_eq. cbv zeta. rewrite Hname, Hprep. simpl.
  split; [reflexivity|]. split; [reflexivity|]. apply appended_record.
Qed.

Lemma runAsync_failed_preparation_witness :
  fst (runAsync broken_machine deploy startup) = Abrupt (Error "npm install failed") /\
  exitCode (snd (runAsync broken_machine deploy startup)) = exitCode startup /\
  appended startup (snd (runAsync broken_machine deploy startup))
  = [PrepareAsync (_autoinstallerName deploy) false].
Proof.
  apply (runAsync_failed_preparation broken_machine deploy startup).
  - discriminate.
  - reflexivity.
Defined.

(** X12: when the lifecycle command cannot be run and
    [executeLifecycleCommand] throws, [runAsync] throws that same error,
    not [AlreadyReportedError]: it prints nothing and process.exitCode keeps
    its value. *)
Theorem runAsync_command_throws
  (host : Host) (this : GlobalScriptAction) (w : World) (e : JsError) :
  preparationCompletes host this = true ->
  lifecycleExit host this = Abrupt e ->
  fst (runAsync host this w) = Abrupt e /\
  exitCode (snd (runAsync host this w)) = exitCode w /\
  filter isConsoleLog (appended w (snd (runAsync host this w))) = [].
Proof.
  intros Hprep Hexit.
  rewrite runAsync_appended, Hprep, Hexit, runAsync_eq. cbv zeta. rewrite Hexit.
  unfold preparationCompletes in Hprep.
  destruct (truthy (_autoinstallerName this)).
  - destruct (prepareAsync host _ _); [|discriminate Hprep]. simpl. auto.
  - simpl. auto.
Qed.

Lemma runAsync_command_throws_witness :
  fst (runAsync broken_machine clean startup) = Abrupt (Error "spawnSync /bin/sh ENOENT") /\
  exitCode (snd (runAsync broken_machine clean startup)) = exitCode startup /\
  filter isConsoleLog (appended startup (snd (runAsync broken_machine clean startup))) = [].
Proof.
  apply (runAsync_command_throws broken_machine clean startup); reflexivity.
Defined.

(** X13: one call of [runAsync] executes at most one lifecycle command and
    prints at most one message; a message is printed only after a command
    was executed, and the command string always starts with the configured
    shell command. *)
Theorem runAsync_at_most_one_command
  (host : Host) (this : GlobalScriptAction) (w : World) :
  let trace := appended w (snd (runAsync host this w)) in
  length (filter isCommand trace) <= 1 /\
  length (filter isConsoleLog trace) <= length (filter isCommand trace) /\
  forall command options,
    In (ExecuteLifecycleCommand command options) trace ->
    String.prefix (_shellCommand this) command = true.
Proof.
  cbv zeta. rewrite runAsync_appended.
  assert (Hprefix : String.prefix (_shellCommand this) (commandLine this) = true).
  { unfold commandLine.
    destruct (0 <? length (customParameterValues this))%nat;
      [apply prefix_append | apply prefix_refl]. }
  destruct (truthy (_autoinstallerName this));
    destruct (preparationCompletes host this); simpl;
    try (destruct (lifecycleExit host this) as [code|e];
         [destruct (0 <? code)%Z|]; simpl);
    (split; [lia|]); (split; [lia|]);
    intros command options Hin;
    repeat (destruct Hin as [Hin | Hin];
            [first [discriminate Hin | injection Hin as <- _; exact Hprefix]|]);
    destruct Hin.
Qed.

(** ** How the Git calls follow one another *)

Lemma getGitPath_spawnCount (host : Host) (w : World) :
  spawnCount (snd (getGitPath host w))
  = spawnCount w + match _hasGit w with Some _ => 0 | None => 1 end.
Proof.
  destruct (getGitPath_world host w) as [[b [Hb Hrun]] | [[Hn Hrun] | [Hn Hrun]]];
    rewrite Hrun; simpl snd.
  - rewrite Hb. lia.
  - rewrite Hn.
    rewrite (spawnCount_app w _ [whichGitEvent host]) by reflexivity.
    reflexivity.
  - rewrite Hn.
    rewrite (spawnCount_app w _ [whichGitEvent host]) by reflexivity.
    reflexivity.
Qed.

(** X14: a call of [getGitPath], [detectIfGitIsSupported], [tryGetGitEmail]
    or [getGitEmail] probes the PATH exactly once when [_hasGit] is undefined
    and never when it is set; the constructor and [runAsync] of
    [GlobalScriptAction] never probe it. *)
Theorem probes_per_call (host : Host) (c : Call) (w : World) :
  spawnCount (worldAfter host c w)
  = spawnCount w
    + match c, _hasGit w with
      | Call_new_GlobalScriptAction _, _ => 0
      | Call_runAsync _, _ => 0
      | _, Some _ => 0
      | _, None => 1
      end.
Proof.
  destruct (getGitPath_returns host w) as (p & w1 & Hget & _).
  pose proof (getGitPath_spawnCount host w) as Hcount.
  rewrite Hget in Hcount. simpl in Hcount.
  destruct c as [| | | configuration | options | this]; simpl worldAfter.
  - rewrite Hget. simpl. rewrite Hcount. destruct (_hasGit w); reflexivity.
  - rewrite (detectIfGitIsSupported_world host w w1 p Hget).
    destruct (truthyBuffer_opt p); rewrite ?spawnCount_record by reflexivity;
      rewrite Hcount; destruct (_hasGit w); reflexivity.
  - rewrite (tryGetGitEmail_world host w w1 p Hget).
    destruct (truthyBuffer_opt p); rewrite ?spawnCount_record by reflexivity;
      rewrite Hcount; destruct (_hasGit w); reflexivity.
  - destruct (getGitEmail_world host configuration w)
      as [[email [_ Hw]] | [text [_ Hw]]]; rewrite Hw;
      rewrite (tryGetGitEmail_world host w w1 p Hget);
      destruct (truthyBuffer_opt p); rewrite ?spawnCount_record by reflexivity;
      rewrite Hcount; destruct (_hasGit w); reflexivity.
  - rewrite new_GlobalScriptAction_pure. lia.
  - rewrite runAsync_spawns_nothing. lia.
Qed.

(** X15: in a world whose statics agree, once [detectIfGitIsSupported] has
    answered true, a following [getGitEmail] does not probe the PATH again
    and does run [git config user.email]; it returns the trimmed output
    whenever the command prints an address. *)
Theorem getGitEmail_after_git_detected
  (host : Host) (configuration : RushConfiguration) (w : World) :
  staticsConsistent w ->
  fst (detectIfGitIsSupported host w) = Normal true ->
  let w' := snd (detectIfGitIsSupported host w) in
  spawnCount (snd (getGitEmail host configuration w')) = spawnCount w' /\
  In (ExecuteCommandAndCaptureOutput "git" ["config"; "user.email"] ".")
     (appended w' (snd (getGitEmail host configuration w'))) /\
  (forall output,
     gitConfigUserEmail host = Normal output -> trim output <> "" ->
     fst (getGitEmail host configuration w') = Normal (trim output)).
Proof.
  intros Hcons Htrue. cbv zeta.
  destruct (getGitPath_returns host w) as (p & w1 & Hget & _).
  rewrite (detectIfGitIsSupported_eq host w w1 p Hget) in Htrue.
  rewrite (detectIfGitIsSupported_world host w w1 p Hget).
  destruct (truthyBuffer_opt p) eqn:Hp; [|discriminate Htrue]. clear Htrue.
  (* the statics after the first call hold the path that was returned *)
  assert (Hcached : exists b, _hasGit w1 = Some b /\ _gitPath w1 = p).
  { destruct (getGitPath_world host w) as [[b [Hb Hrun]] | [[Hn Hrun] | [Hn Hrun]]];
      rewrite Hrun in Hget; injection Hget as <- <-.
    - exists b. auto.
    - eexists. split; reflexivity.
    - exfalso. unfold staticsConsistent in Hcons. rewrite Hn in Hcons.
      rewrite Hcons in Hp. discriminate Hp. }
  destruct Hcached as (b & Hb & Hpath).
  set (w' := record GitInfo w1).
  assert (Hget' : getGitPath host w' = (Normal p, w')).
  { rewrite (getGitPath_cached host w' b) by exact Hb. rewrite <- Hpath. reflexivity. }
  pose proof (tryGetGitEmail_eq host w' w' p Hget') as Htry.
  rewrite Hp in Htry.
  unfold getGitEmail, bind. rewrite Htry.
  destruct (gitConfigUserEmail host) as [output|e]; simpl.
  - destruct (truthy (trim output)) eqn:Htrim; simpl.
    + split; [apply spawnCount_record; reflexivity|].
      split; [rewrite appended_record; left; reflexivity|].
      intros output' Hout _. injection Hout as <-. reflexivity.
    + split; [rewrite !spawnCount_record by reflexivity; reflexivity|].
      split.
      * erewrite appended_app by (simpl; rewrite <- app_assoc; reflexivity).
        left. reflexivity.
      * intros output' Hout Hne. injection Hout as <-.
        apply truthy_false_iff in Htrim. contradiction.
  - split; [rewrite !spawnCount_record by reflexivity; reflexivity|].
    split.
    + erewrite appended_app by (simpl; rewrite <- app_assoc; reflexivity).
      left. reflexivity.
    + intros output' Hout. discriminate Hout.
Qed.

Lemma getGitEmail_after_git_detected_witness :
  let w' := snd (detectIfGitIsSupported linux_with_git startup) in
  spawnCount (snd (getGitEmail linux_with_git sample_configuration w')) = spawnCount w' /\
  In (ExecuteCommandAndCaptureOutput "git" ["config"; "user.email"] ".")
     (appended w' (snd (getGitEmail linux_with_git sample_configuration w'))) /\
  (forall output,
     gitConfigUserEmail linux_with_git = Normal output -> trim output <> "" ->
     fst (getGitEmail linux_with_git sample_configuration w') = Normal (trim output)).
Proof.
  apply (getGitEmail_after_git_detected linux_with_git sample_configuration startup).
  - reflexivity.
  - vm_compute. reflexivity.
Defined.
